(** * UpToDead: weekly team activity tracker (src/App.jsx, src/firebase.js)

    A shallow embedding of the data and workflow logic of the React
    component [App]: the ISO week key of a date, the prompt of the summary
    request, the derived list of the week's entries and the three event
    handlers, which run in a small state, exception and trace monad whose
    external replies (Firestore, the inference endpoint) come from an
    oracle. *)

From Stdlib Require Import ZArith NArith List String Ascii Lia Bool DecimalString.
From stdpp Require Import base list.

Local Open Scope Z_scope.

(** ** JavaScript strings

    A JavaScript string is a sequence of UTF-16 code units.  [lit] embeds an
    ASCII literal of the source. *)

Abbreviation jsstring := (list N).

Definition lit (s : string) : jsstring :=
  map N_of_ascii (list_ascii_of_string s).

(** Truthiness of a string value: only the empty string is falsy. *)
Definition truthy (s : jsstring) : bool :=
  match s with
  | [] => false
  | _ :: _ => true
  end.

(** WhiteSpace and LineTerminator code units of ECMAScript, the ones
    [String.prototype.trim] strips. *)
Definition isWhiteSpace (c : N) : bool :=
  let z := Z.of_N c in
  (z =? 0x09) || (z =? 0x0A) || (z =? 0x0B) || (z =? 0x0C) || (z =? 0x0D)
  || (z =? 0x20) || (z =? 0xA0) || (z =? 0x1680)
  || ((0x2000 <=? z) && (z <=? 0x200A))
  || (z =? 0x2028) || (z =? 0x2029) || (z =? 0x202F) || (z =? 0x205F)
  || (z =? 0x3000) || (z =? 0xFEFF).

Fixpoint dropWhile {A} (p : A -> bool) (l : list A) : list A :=
  match l with
  | [] => []
  | x :: l' => if p x then dropWhile p l' else l
  end.

Definition trimStart (s : jsstring) : jsstring := dropWhile isWhiteSpace s.
Definition trimEnd (s : jsstring) : jsstring :=
  rev (dropWhile isWhiteSpace (rev s)).

(** [s.trim()] *)
Definition trim (s : jsstring) : jsstring := trimEnd (trimStart s).

(** [parts.join(sep)] *)
Fixpoint join (sep : jsstring) (parts : list jsstring) : jsstring :=
  match parts with
  | [] => []
  | [p] => p
  | p :: rest => p ++ sep ++ join sep rest
  end.

(** [String(n)] and [`${n}`] for an integral Number [n] (below 10^21, where
    JavaScript prints all the digits). *)
Definition String_of_int (n : Z) : jsstring :=
  lit (NilZero.string_of_int (Z.to_int n)).

(** [s.padStart(targetLength, padString)] *)
Fixpoint fill (n : nat) (pad cur : jsstring) : jsstring :=
  match n with
  | O => []
  | S n' =>
      match cur with
      | [] =>
          match pad with
          | [] => []
          | c :: cur' => c :: fill n' pad cur'
          end
      | c :: cur' => c :: fill n' pad cur'
      end
  end.

Definition padStart (s : jsstring) (targetLength : nat) (padString : jsstring)
  : jsstring :=
  if (targetLength <=? length s)%nat then s
  else fill (targetLength - length s) padString padString ++ s.

(** [s.includes(sub)], as a proposition. *)
Definition includes (s sub : jsstring) : Prop :=
  exists pre post, s = pre ++ sub ++ post.

(** ** Dates

    The time value of a [Date] is a number of milliseconds since the epoch;
    the functions below are the abstract operations of ECMAScript (Day,
    DayFromYear, YearFromTime, MonthFromTime, DateFromTime, WeekDay, MakeDay,
    MakeDate) on integral time values of valid dates. *)
Module JsDate.

Definition msPerDay : Z := 86400000.

Definition Day (t : Z) : Z := t / msPerDay.
Definition TimeWithinDay (t : Z) : Z := t mod msPerDay.

Definition DayFromYear (y : Z) : Z :=
  365 * (y - 1970) + (y - 1969) / 4 - (y - 1901) / 100 + (y - 1601) / 400.

Definition InLeapYear (y : Z) : bool :=
  (y mod 4 =? 0) && (negb (y mod 100 =? 0) || (y mod 400 =? 0)).

Definition DaysInYear (y : Z) : Z := if InLeapYear y then 366 else 365.

(** The largest [y] with [DayFromYear y <= d], searched upwards from a
    year that is not after [d]. *)
Fixpoint year_search (fuel : nat) (y d : Z) : Z :=
  match fuel with
  | O => y
  | S fuel' =>
      if DayFromYear (y + 1) <=? d then year_search fuel' (y + 1) d else y
  end.

Definition year_floor (d : Z) : Z :=
  1970 + (if 0 <=? d then d / 366 else d / 365).

Definition YearFromDay (d : Z) : Z :=
  let y0 := year_floor d in
  year_search (Z.to_nat ((d - DayFromYear y0) / 365 + 1)) y0 d.

Definition YearFromTime (t : Z) : Z := YearFromDay (Day t).

(** Number of days of the year before month [m] (0 = January). *)
Definition monthStart (leap : bool) (m : Z) : Z :=
  let l := if leap then 1 else 0 in
  match m with
  | 0 => 0
  | 1 => 31
  | 2 => 59 + l
  | 3 => 90 + l
  | 4 => 120 + l
  | 5 => 151 + l
  | 6 => 181 + l
  | 7 => 212 + l
  | 8 => 243 + l
  | 9 => 273 + l
  | 10 => 304 + l
  | 11 => 334 + l
  | _ => 365 + l
  end.

Definition DayWithinYear (t : Z) : Z :=
  Day t - DayFromYear (YearFromTime t).

Fixpoint month_search (fuel : nat) (leap : bool) (m dwy : Z) : Z :=
  match fuel with
  | O => m
  | S fuel' =>
      if monthStart leap (m + 1) <=? dwy
      then month_search fuel' leap (m + 1) dwy
      else m
  end.

Definition MonthFromTime (t : Z) : Z :=
  month_search 11 (InLeapYear (YearFromTime t)) 0 (DayWithinYear t).

Definition DateFromTime (t : Z) : Z :=
  DayWithinYear t
  - monthStart (InLeapYear (YearFromTime t)) (MonthFromTime t) + 1.

(** 1970-01-01 was a Thursday; 0 = Sunday. *)
Definition WeekDay (t : Z) : Z := (Day t + 4) mod 7.

Definition MakeDay (year month date : Z) : Z :=
  let ym := year + month / 12 in
  let mn := month mod 12 in
  DayFromYear ym + monthStart (InLeapYear ym) mn + date - 1.

Definition MakeDate (day time : Z) : Z := day * msPerDay + time.

(** [Date.UTC(year, month, date)]: a year from 0 to 99 means 1900 + year. *)
Definition UTC (year month date : Z) : Z :=
  let yr := if (0 <=? year) && (year <=? 99) then 1900 + year else year in
  MakeDate (MakeDay yr month date) 0.

Definition getUTCFullYear (t : Z) : Z := YearFromTime t.
Definition getUTCDate (t : Z) : Z := DateFromTime t.
Definition getUTCDay (t : Z) : Z := WeekDay t.

(** [d.setUTCDate(dt)] gives [d] the new time value. *)
Definition setUTCDate (t dt : Z) : Z :=
  MakeDate (MakeDay (YearFromTime t) (MonthFromTime t) dt) (TimeWithinDay t).

End JsDate.

(** The local calendar fields read from the argument of [getWeekKey]:
    [date.getFullYear()], [date.getMonth()] (0 = January), [date.getDate()]. *)
Record LocalDate := {
  getFullYear : Z;
  getMonth : Z;
  getDate : Z
}.

(** [Math.ceil(a / b)] for integral [a] and positive [b]: in the range of
    day counts the quotient of the two Numbers rounds to the same integer. *)
Definition ceil_div (a b : Z) : Z := - ((- a) / b).

(** [x || 7] on Numbers. *)
Definition or_default (x dflt : Z) : Z := if x =? 0 then dflt else x.

(** The time value of [tempDate] once [setUTCDate] has moved it to the
    Thursday of its week. *)
Definition weekThursday (date : LocalDate) : Z :=
  let tempDate := JsDate.UTC (getFullYear date) (getMonth date) (getDate date) in
  let dayNum := or_default (JsDate.getUTCDay tempDate) 7 in
  JsDate.setUTCDate tempDate (JsDate.getUTCDate tempDate + 4 - dayNum).

Definition getWeekKey (date : LocalDate) : jsstring :=
  let tempDate := weekThursday date in
  let yearStart := JsDate.UTC (JsDate.getUTCFullYear tempDate) 0 1 in
  let weekNo := ceil_div ((tempDate - yearStart) / JsDate.msPerDay + 1) 7 in
  String_of_int (JsDate.getUTCFullYear tempDate)
  ++ lit "-W" ++ padStart (String_of_int weekNo) 2 (lit "0").

(** ** Configuration (src/firebase.js)

    [import.meta.env]: each value is a string or [undefined]. *)
Record ImportMetaEnv := {
  VITE_GEMINI_API_KEY : option jsstring;
  VITE_FIREBASE_API_KEY : option jsstring;
  VITE_FIREBASE_AUTH_DOMAIN : option jsstring;
  VITE_FIREBASE_PROJECT_ID : option jsstring;
  VITE_FIREBASE_STORAGE_BUCKET : option jsstring;
  VITE_FIREBASE_MESSAGING_SENDER_ID : option jsstring;
  VITE_FIREBASE_APP_ID : option jsstring
}.

(** Truthiness of a value that is a string or [undefined]. *)
Definition truthy_opt (v : option jsstring) : bool :=
  match v with
  | None => false
  | Some s => truthy s
  end.

(** [a || b] where [a] is a string. *)
Definition or_else (a b : jsstring) : jsstring := if truthy a then a else b.

(** The handle returned by [getFirestore]. *)
Inductive Firestore := FirestoreHandle.

Module Firebase.

Inductive ConfigKey :=
  apiKey | authDomain | projectId | storageBucket | messagingSenderId | appId.

Definition key_name (k : ConfigKey) : jsstring :=
  match k with
  | apiKey => lit "apiKey"
  | authDomain => lit "authDomain"
  | projectId => lit "projectId"
  | storageBucket => lit "storageBucket"
  | messagingSenderId => lit "messagingSenderId"
  | appId => lit "appId"
  end.

(** [firebaseConfig[key]] *)
Definition firebaseConfig (env : ImportMetaEnv) (k : ConfigKey)
  : option jsstring :=
  match k with
  | apiKey => VITE_FIREBASE_API_KEY env
  | authDomain => VITE_FIREBASE_AUTH_DOMAIN env
  | projectId => VITE_FIREBASE_PROJECT_ID env
  | storageBucket => VITE_FIREBASE_STORAGE_BUCKET env
  | messagingSenderId => VITE_FIREBASE_MESSAGING_SENDER_ID env
  | appId => VITE_FIREBASE_APP_ID env
  end.

Definition requiredKeys : list ConfigKey :=
  [apiKey; authDomain; projectId; storageBucket; messagingSenderId; appId].

Definition missingFirebaseKeys (env : ImportMetaEnv) : list ConfigKey :=
  List.filter (fun key => negb (truthy_opt (firebaseConfig env key)))
    requiredKeys.

Definition isUpperAZ (c : N) : bool := ((65 <=? c) && (c <=? 90))%N.
Definition isLowerAZ (c : N) : bool := ((97 <=? c) && (c <=? 122))%N.

(** [key.replace(/([A-Z])/g, '_$1')] *)
Definition underscoreCapitals (s : jsstring) : jsstring :=
  flat_map (fun c => if isUpperAZ c then [95%N; c] else [c]) s.

(** [s.toUpperCase()] on the ASCII key names. *)
Definition toUpperCase (s : jsstring) : jsstring :=
  map (fun c => if isLowerAZ c then (c - 32)%N else c) s.

Definition envName (key : ConfigKey) : jsstring :=
  lit "VITE_FIREBASE_" ++ toUpperCase (underscoreCapitals (key_name key)).

Definition firebaseConfigError (env : ImportMetaEnv) : jsstring :=
  if (length (missingFirebaseKeys env) =? 0)%nat then lit ""
  else lit "Missing Firebase environment variables: "
       ++ join (lit ", ") (map envName (missingFirebaseKeys env))
       ++ lit ".".

(** [app] is [null] exactly when the configuration error is truthy, and
    [db] is [getFirestore(app)] or [null]. *)
Definition db (env : ImportMetaEnv) : option Firestore :=
  if truthy (firebaseConfigError env) then None else Some FirestoreHandle.

End Firebase.

(** ** Data of the component *)

(** The active team, [{ id, name }]. *)
Module Team.
Record t := { id : jsstring; name : jsstring }.
End Team.

(** An element of [entries]: a document of [weeklyInputs] with its id. *)
Module Entry.
Record t := {
  id : jsstring;
  memberName : jsstring;
  update : jsstring;
  weekKey : jsstring
}.
End Entry.

(** An element of [summaries]. *)
Module Summary.
Record t := { id : jsstring; weekKey : jsstring; content : jsstring }.
End Summary.

(** The documents the component writes; [createdAt: serverTimestamp()] is
    the same sentinel in each and is left implicit. *)
Inductive Doc :=
| TeamDoc (name : jsstring)
| WeeklyInputDoc (memberName update weekKey : jsstring)
| SummaryDoc (weekKey content : jsstring).

(** The values of the [useState] hooks of [App]. *)
Record AppState := {
  teamName : jsstring;
  activeTeam : option Team.t;
  weekKey : jsstring;
  memberName : jsstring;
  update : jsstring;
  entries : list Entry.t;
  summaries : list Summary.t;
  loadingAi : bool;
  error : jsstring
}.

(** An [Error] object, of which the handlers read [message]. *)
Record JsError := { message : jsstring }.

Inductive Outcome (A : Type) :=
| Returned (a : A)
| Thrown (e : JsError).
Arguments Returned {A} a.
Arguments Thrown {A} e.

(** The request of [createAiSummary]; [text] is the prompt, which the source
    wraps as [{ contents: [{ parts: [{ text }] }] }] and serialises. *)
Record Request := {
  url : jsstring;
  method : jsstring;
  contentType : jsstring;
  text : jsstring
}.

(** A resolved [fetch]: the flag [ok], the result of [response.text()] and,
    of [response.json()], the string at
    [candidates[0].content.parts[0].text] when there is one. *)
Record Response := {
  ok : bool;
  body_text : Outcome jsstring;
  body_json : Outcome (option jsstring)
}.

(** What the outside answers: the environment values, the result of every
    [addDoc] (the id of the new reference, or a rejection) and of every
    [fetch]. *)
Record World := {
  env : ImportMetaEnv;
  addDoc_reply : list jsstring -> Doc -> Outcome jsstring;
  fetch_reply : Request -> Outcome Response
}.

Inductive Event :=
| Call_preventDefault
| Call_setTeamName (v : jsstring)
| Call_setActiveTeam (v : option Team.t)
| Call_setUpdate (v : jsstring)
| Call_setLoadingAi (v : bool)
| Call_setError (v : jsstring)
| Call_addDoc (path : list jsstring) (doc : Doc)
| Call_fetch (req : Request).

(** [===] on two strings. *)
Fixpoint strict_eq (a b : jsstring) : bool :=
  match a, b with
  | [], [] => true
  | x :: a', y :: b' => (x =? y)%N && strict_eq a' b'
  | _, _ => false
  end.

(** [weekEntries]: [entries.filter((item) => item.weekKey === weekKey)] *)
Definition weekEntries (r : AppState) : list Entry.t :=
  List.filter (fun item => strict_eq (Entry.weekKey item) (weekKey r))
    (entries r).

(** The template literal [prompt] of [createAiSummary]. *)
Definition prompt (teamName weekKey : jsstring) (updates : list Entry.t)
  : jsstring :=
  lit "You are a project manager assistant. Summarize these weekly updates for team "
  ++ teamName
  ++ lit " in concise bullet points with:" ++ [10%N]
  ++ lit "1) Wins" ++ [10%N]
  ++ lit "2) Risks" ++ [10%N]
  ++ lit "3) Next week focus" ++ [10%N; 10%N]
  ++ lit "Week: " ++ weekKey ++ [10%N; 10%N]
  ++ lit "Updates:" ++ [10%N]
  ++ join [10%N]
       (map (fun item =>
               lit "- " ++ Entry.memberName item ++ lit ": " ++ Entry.update item)
          updates).

(** ** The monad of the handlers

    A computation reads and updates the pending values of the hooks, logs
    the calls it makes and either returns or throws.  A handler is an
    [async] function: thrown out of it, an error is the rejection of the
    promise the handler returns, which nothing in [App] handles. *)
Definition M (A : Type) : Type := AppState -> Outcome A * AppState * list Event.

Definition ret {A} (a : A) : M A := fun s => (Returned a, s, []).

Definition throw {A} (e : JsError) : M A := fun s => (Thrown e, s, []).

Definition bind {A B} (m : M A) (k : A -> M B) : M B :=
  fun s =>
    match m s with
    | (Returned a, s1, t1) =>
        match k a s1 with
        | (o, s2, t2) => (o, s2, t1 ++ t2)
        end
    | (Thrown e, s1, t1) => (Thrown e, s1, t1)
    end.

Notation "x <- m ;; k" := (bind m (fun x => k))
  (at level 100, m at next level, right associativity).
Notation "m ;;; k" := (bind m (fun _ => k))
  (at level 100, right associativity).

(** [try { body } catch (e) { handler } finally { fin }] *)
Definition try_catch_finally {A} (body : M A) (handler : JsError -> M A)
  (fin : M unit) : M A :=
  fun s =>
    let '(o1, s1, t1) :=
      match body s with
      | (Returned a, s1, t1) => (Returned a, s1, t1)
      | (Thrown e, s1, t1) =>
          match handler e s1 with
          | (o, s2, t2) => (o, s2, t1 ++ t2)
          end
      end in
    match fin s1 with
    | (Returned _, s2, t2) => (o1, s2, t1 ++ t2)
    | (Thrown e, s2, t2) => (Thrown e, s2, t1 ++ t2)
    end.

Definition log (ev : Event) : M unit := fun s => (Returned tt, s, [ev]).

Definition modify (f : AppState -> AppState) : M unit :=
  fun s => (Returned tt, f s, []).

(** [await] of a promise that the outside settles. *)
Definition await {A} (o : Outcome A) : M A :=
  match o with
  | Returned a => ret a
  | Thrown e => throw e
  end.

Definition preventDefault : M unit := log Call_preventDefault.

(** The setters of the hooks. *)
Definition with_teamName (v : jsstring) (s : AppState) : AppState :=
  {| teamName := v; activeTeam := activeTeam s; weekKey := weekKey s;
     memberName := memberName s; update := update s; entries := entries s;
     summaries := summaries s; loadingAi := loadingAi s; error := error s |}.

Definition with_activeTeam (v : option Team.t) (s : AppState) : AppState :=
  {| teamName := teamName s; activeTeam := v; weekKey := weekKey s;
     memberName := memberName s; update := update s; entries := entries s;
     summaries := summaries s; loadingAi := loadingAi s; error := error s |}.

Definition with_update (v : jsstring) (s : AppState) : AppState :=
  {| teamName := teamName s; activeTeam := activeTeam s; weekKey := weekKey s;
     memberName := memberName s; update := v; entries := entries s;
     summaries := summaries s; loadingAi := loadingAi s; error := error s |}.

Definition with_loadingAi (v : bool) (s : AppState) : AppState :=
  {| teamName := teamName s; activeTeam := activeTeam s; weekKey := weekKey s;
     memberName := memberName s; update := update s; entries := entries s;
     summaries := summaries s; loadingAi := v; error := error s |}.

Definition with_error (v : jsstring) (s : AppState) : AppState :=
  {| teamName := teamName s; activeTeam := activeTeam s; weekKey := weekKey s;
     memberName := memberName s; update := update s; entries := entries s;
     summaries := summaries s; loadingAi := loadingAi s; error := v |}.

Definition setTeamName (v : jsstring) : M unit :=
  log (Call_setTeamName v) ;;; modify (with_teamName v).

Definition setActiveTeam (v : option Team.t) : M unit :=
  log (Call_setActiveTeam v) ;;; modify (with_activeTeam v).

Definition setUpdate (v : jsstring) : M unit :=
  log (Call_setUpdate v) ;;; modify (with_update v).

Definition setLoadingAi (v : bool) : M unit :=
  log (Call_setLoadingAi v) ;;; modify (with_loadingAi v).

Definition setError (v : jsstring) : M unit :=
  log (Call_setError v) ;;; modify (with_error v).

Section App.

Variable w : World.

Definition firebaseConfigError : jsstring := Firebase.firebaseConfigError (env w).
Definition db : option Firestore := Firebase.db (env w).

(** [await addDoc(collection(db, ...path), doc)] *)
Definition addDoc (path : list jsstring) (doc : Doc) : M jsstring :=
  log (Call_addDoc path doc) ;;;
  await (addDoc_reply w path doc).

(** [await fetch(url, { method, headers, body })] *)
Definition fetch (req : Request) : M Response :=
  log (Call_fetch req) ;;;
  await (fetch_reply w req).

Definition createAiSummary (teamName weekKey : jsstring)
  (updates : list Entry.t) : M jsstring :=
  match VITE_GEMINI_API_KEY (env w) with
  | None => throw {| message := lit "Missing VITE_GEMINI_API_KEY in .env file." |}
  | Some apiKey =>
      if negb (truthy apiKey)
      then throw {| message := lit "Missing VITE_GEMINI_API_KEY in .env file." |}
      else
        response <- fetch
          {| url := lit "https://generativelanguage.googleapis.com/v1beta/models/gemini-1.5-flash:generateContent?key="
                    ++ apiKey;
             method := lit "POST";
             contentType := lit "application/json";
             text := prompt teamName weekKey updates |} ;;
        if negb (ok response)
        then
          message <- await (body_text response) ;;
          throw {| message := lit "AI request failed: " ++ message |}
        else
          data <- await (body_json response) ;;
          ret (match data with
               | Some t => t
               | None => lit "No summary returned."
               end)
  end.

(** The handlers close over the values [r] of the hooks at the render
    that created them. *)
Definition handleCreateTeam (r : AppState) : M unit :=
  preventDefault ;;;
  setError (lit "") ;;;
  if negb (truthy (trim (teamName r)))
  then setError (lit "Team name is required.")
  else
    match db with
    | None => setError (or_else firebaseConfigError (lit "Firebase is not configured."))
    | Some _ =>
        teamRef <- addDoc [lit "teams"] (TeamDoc (trim (teamName r))) ;;
        setActiveTeam (Some {| Team.id := teamRef; Team.name := trim (teamName r) |}) ;;;
        setTeamName (lit "")
    end.

Definition handleAddEntry (r : AppState) : M unit :=
  preventDefault ;;;
  setError (lit "") ;;;
  match activeTeam r with
  | None => setError (lit "Create a team first.")
  | Some team =>
      match db with
      | None => setError (or_else firebaseConfigError (lit "Firebase is not configured."))
      | Some _ =>
          if negb (truthy (trim (memberName r))) || negb (truthy (trim (update r)))
          then setError (lit "Member name and update are required.")
          else
            addDoc [lit "teams"; Team.id team; lit "weeklyInputs"]
              (WeeklyInputDoc (trim (memberName r)) (trim (update r)) (weekKey r)) ;;;
            setUpdate (lit "")
      end
  end.

Definition handleGenerateSummary (r : AppState) : M unit :=
  setError (lit "") ;;;
  match activeTeam r with
  | None => setError (lit "Create a team first.")
  | Some team =>
      match db with
      | None => setError (or_else firebaseConfigError (lit "Firebase is not configured."))
      | Some _ =>
          if (length (weekEntries r) =? 0)%nat
          then setError (lit "Add at least one weekly update before generating summary.")
          else
            setLoadingAi true ;;;
            try_catch_finally
              (summaryText <- createAiSummary (Team.name team) (weekKey r) (weekEntries r) ;;
               addDoc [lit "teams"; Team.id team; lit "summaries"]
                 (SummaryDoc (weekKey r) summaryText) ;;;
               ret tt)
              (fun aiError => setError (message aiError))
              (setLoadingAi false)
      end
  end.

End App.

(** One run of a handler created at the render with hook values [r]: the
    pending values start at [r]. *)
Definition run (h : AppState -> M unit) (r : AppState)
  : Outcome unit * AppState * list Event := h r r.

Definition outcome_of {A} (x : Outcome A * AppState * list Event) : Outcome A :=
  fst (fst x).
Definition state_of {A} (x : Outcome A * AppState * list Event) : AppState :=
  snd (fst x).
Definition trace_of {A} (x : Outcome A * AppState * list Event) : list Event :=
  snd x.

Definition is_write (ev : Event) : bool :=
  match ev with
  | Call_addDoc _ _ => true
  | _ => false
  end.

(** The store writes a run attempts. *)
Definition writes (t : list Event) : list Event := List.filter is_write t.

(** The three operations. *)
Inductive Operation := CreateTeam | AddWeeklyInput | GenerateSummary.

Definition handler (w : World) (op : Operation) : AppState -> M unit :=
  match op with
  | CreateTeam => handleCreateTeam w
  | AddWeeklyInput => handleAddEntry w
  | GenerateSummary => handleGenerateSummary w
  end.

(** A run succeeded when a write it made was acknowledged by the store. *)
Definition acknowledged (w : World) (ev : Event) : bool :=
  match ev with
  | Call_addDoc path doc =>
      match addDoc_reply w path doc with
      | Returned _ => true
      | Thrown _ => false
      end
  | _ => false
  end.

Definition succeeded (w : World) (op : Operation) (r : AppState) : bool :=
  existsb (acknowledged w) (trace_of (run (handler w op) r)).

(** The calls an operation makes before it first touches a hook. *)
Definition preamble (op : Operation) : list Event :=
  match op with
  | CreateTeam | AddWeeklyInput => [Call_preventDefault]
  | GenerateSummary => []
  end.

(** Following the spec's words: the view of the entries of a week is the
    sub-list of the source, in the order of the source, of the entries whose
    week key is the selected one, with all of them. *)
Definition is_week_view (key : jsstring) (source view : list Entry.t) : Prop :=
  sublist view source
  /\ Forall (fun item => Entry.weekKey item = key) view
  /\ forall l : list Entry.t,
       sublist l source ->
       Forall (fun item => Entry.weekKey item = key) l ->
       sublist l view.

(** Following the spec's words: the bulleted line ["- {memberName}: {update}"]
    of an entry. *)
Definition bullet (item : Entry.t) : jsstring :=
  lit "- " ++ Entry.memberName item ++ lit ": " ++ Entry.update item.

(** ** Sample inputs *)
Module Sample.

Definition env_ok : ImportMetaEnv := {|
  VITE_GEMINI_API_KEY := Some (lit "gemini-key");
  VITE_FIREBASE_API_KEY := Some (lit "key");
  VITE_FIREBASE_AUTH_DOMAIN := Some (lit "app.firebaseapp.com");
  VITE_FIREBASE_PROJECT_ID := Some (lit "app");
  VITE_FIREBASE_STORAGE_BUCKET := Some (lit "app.appspot.com");
  VITE_FIREBASE_MESSAGING_SENDER_ID := Some (lit "1");
  VITE_FIREBASE_APP_ID := Some (lit "1:1:web:1")
|}.

Definition reply_ok : Response := {|
  ok := true;
  body_text := Returned (lit "{}");
  body_json := Returned (Some (lit "Wins: shipped X"))
|}.

Definition reply_quota : Response := {|
  ok := false;
  body_text := Returned (lit "quota exceeded");
  body_json := Returned None
|}.

(** Every write is acknowledged and the model answers. *)
Definition w_ok : World := {|
  env := env_ok;
  addDoc_reply := fun _ _ => Returned (lit "doc1");
  fetch_reply := fun _ => Returned reply_ok
|}.

(** The store rejects every write (security rules, network). *)
Definition w_denied : World := {|
  env := env_ok;
  addDoc_reply := fun _ _ =>
    Thrown {| message := lit "Missing or insufficient permissions." |};
  fetch_reply := fun _ => Returned reply_ok
|}.

(** The inference endpoint answers with a non-success status. *)
Definition w_quota : World := {|
  env := env_ok;
  addDoc_reply := fun _ _ => Returned (lit "doc1");
  fetch_reply := fun _ => Returned reply_quota
|}.

Definition ana : Entry.t := {|
  Entry.id := lit "e1";
  Entry.memberName := lit "Ana";
  Entry.update := lit "Shipped X";
  Entry.weekKey := lit "2026-W09"
|}.

Definition bo : Entry.t := {|
  Entry.id := lit "e2";
  Entry.memberName := lit "Bo";
  Entry.update := lit "Blocked on review";
  Entry.weekKey := lit "2026-W10"
|}.

Definition squad : Team.t := {| Team.id := lit "t1"; Team.name := lit "Squad" |}.

(** The first render: no team yet, a stale error shown. *)
Definition r_fresh : AppState := {|
  teamName := lit "  Squad ";
  activeTeam := None;
  weekKey := lit "2026-W09";
  memberName := lit "";
  update := lit "";
  entries := [];
  summaries := [];
  loadingAi := false;
  error := lit "stale"
|}.

(** A team is active and the entry form is filled in; the week field was
    edited by hand and carries blanks. *)
Definition r_form : AppState := {|
  teamName := lit "";
  activeTeam := Some squad;
  weekKey := lit " 2026-W09 ";
  memberName := lit " Ana";
  update := lit "Shipped X ";
  entries := [ana];
  summaries := [];
  loadingAi := false;
  error := lit "stale"
|}.

(** A team is active and one entry of the selected week is cached. *)
Definition r_week : AppState := {|
  teamName := lit "";
  activeTeam := Some squad;
  weekKey := lit "2026-W09";
  memberName := lit "Ana";
  update := lit "";
  entries := [ana];
  summaries := [];
  loadingAi := false;
  error := lit "stale"
|}.

(** Entries of two weeks are cached, newest first. *)
Definition r_mixed : AppState := {|
  teamName := lit "";
  activeTeam := Some squad;
  weekKey := lit "2026-W09";
  memberName := lit "";
  update := lit "";
  entries := [bo; ana; bo; ana];
  summaries := [];
  loadingAi := false;
  error := lit ""
|}.

End Sample.

(** ** The rest of the component and of src/firebase.js *)

(** The variable of [import.meta.env] that each field of [firebaseConfig]
    is read from, by name. *)
Definition configVariable (k : Firebase.ConfigKey) : jsstring :=
  match k with
  | Firebase.apiKey => lit "VITE_FIREBASE_API_KEY"
  | Firebase.authDomain => lit "VITE_FIREBASE_AUTH_DOMAIN"
  | Firebase.projectId => lit "VITE_FIREBASE_PROJECT_ID"
  | Firebase.storageBucket => lit "VITE_FIREBASE_STORAGE_BUCKET"
  | Firebase.messagingSenderId => lit "VITE_FIREBASE_MESSAGING_SENDER_ID"
  | Firebase.appId => lit "VITE_FIREBASE_APP_ID"
  end.

(** The handle returned by [getAuth]; [auth] is [null] when [app] is. *)
Inductive Auth := AuthHandle.

Definition auth (e : ImportMetaEnv) : option Auth :=
  if truthy (Firebase.firebaseConfigError e) then None else Some AuthHandle.

(** What the identity provider answers: whether [auth.currentUser] is set,
    and how [signInAnonymously] settles. *)
Record AuthWorld := {
  currentUser : bool;
  signIn_reply : Outcome unit
}.

Inductive AuthCall := Call_signInAnonymously.

(** [ensureAnonymousAuth], up to the sign-in: its outcome and the calls it
    makes to the provider. *)
Definition ensureAnonymousAuth (e : ImportMetaEnv) (a : AuthWorld)
  : Outcome unit * list AuthCall :=
  match auth e with
  | None =>
      (Thrown {| message := or_else (Firebase.firebaseConfigError e)
                              (lit "Firebase is not configured.") |}, [])
  | Some _ =>
      if negb (currentUser a)
      then (signIn_reply a, [Call_signInAnonymously])
      else (Returned tt, [])
  end.

(** The calls to the provider of the effect that runs at mount. *)
Definition mountAuthCalls (w : World) (a : AuthWorld) : list AuthCall :=
  if truthy (firebaseConfigError w) then []
  else snd (ensureAnonymousAuth (env w) a).

(** The effect that runs at mount: it shows the configuration error, or
    signs in and shows the message of a rejected sign-in. *)
Definition mountEffect (w : World) (a : AuthWorld) : M unit :=
  if truthy (firebaseConfigError w)
  then setError (firebaseConfigError w)
  else
    match fst (ensureAnonymousAuth (env w) a) with
    | Returned _ => ret tt
    | Thrown authError => setError (message authError)
    end.

(** [query(collection(db, ...path), orderBy(field, direction))] *)
Record Query := {
  collectionPath : list jsstring;
  orderByField : jsstring;
  orderByDirection : jsstring
}.

Definition updatesQuery (team : Team.t) : Query :=
  {| collectionPath := [lit "teams"; Team.id team; lit "weeklyInputs"];
     orderByField := lit "createdAt";
     orderByDirection := lit "desc" |}.

Definition summaryQuery (team : Team.t) : Query :=
  {| collectionPath := [lit "teams"; Team.id team; lit "summaries"];
     orderByField := lit "createdAt";
     orderByDirection := lit "desc" |}.

(** The effect on [activeTeam]: the queries it listens to with
    [onSnapshot], which its cleanup unsubscribes. *)
Definition subscriptionEffect (w : World) (r : AppState) : list Query :=
  match db w with
  | None => []
  | Some _ =>
      match activeTeam r with
      | None => []
      | Some team => [updatesQuery team; summaryQuery team]
      end
  end.

(** A document of a snapshot of [weeklyInputs]: [doc.id] and the fields of
    [doc.data()]. *)
Record InputDocument := {
  input_id : jsstring;
  input_memberName : jsstring;
  input_update : jsstring;
  input_weekKey : jsstring
}.

(** A document of a snapshot of [summaries]. *)
Record SummaryDocument := {
  summary_id : jsstring;
  summary_weekKey : jsstring;
  summary_content : jsstring
}.

(** [{ id: doc.id, ...doc.data() }] *)
Definition entry_of_document (doc : InputDocument) : Entry.t :=
  {| Entry.id := input_id doc;
     Entry.memberName := input_memberName doc;
     Entry.update := input_update doc;
     Entry.weekKey := input_weekKey doc |}.

Definition summary_of_document (doc : SummaryDocument) : Summary.t :=
  {| Summary.id := summary_id doc;
     Summary.weekKey := summary_weekKey doc;
     Summary.content := summary_content doc |}.

Definition with_entries (v : list Entry.t) (s : AppState) : AppState :=
  {| teamName := teamName s; activeTeam := activeTeam s; weekKey := weekKey s;
     memberName := memberName s; update := update s; entries := v;
     summaries := summaries s; loadingAi := loadingAi s; error := error s |}.

Definition with_summaries (v : list Summary.t) (s : AppState) : AppState :=
  {| teamName := teamName s; activeTeam := activeTeam s; weekKey := weekKey s;
     memberName := memberName s; update := update s; entries := entries s;
     summaries := v; loadingAi := loadingAi s; error := error s |}.

Definition with_weekKey (v : jsstring) (s : AppState) : AppState :=
  {| teamName := teamName s; activeTeam := activeTeam s; weekKey := v;
     memberName := memberName s; update := update s; entries := entries s;
     summaries := summaries s; loadingAi := loadingAi s; error := error s |}.

Definition with_memberName (v : jsstring) (s : AppState) : AppState :=
  {| teamName := teamName s; activeTeam := activeTeam s; weekKey := weekKey s;
     memberName := v; update := update s; entries := entries s;
     summaries := summaries s; loadingAi := loadingAi s; error := error s |}.

(** The callbacks of [onSnapshot]: [setEntries(snapshot.docs.map(...))] and
    [setSummaries(snapshot.docs.map(...))]. *)
Definition onUpdatesSnapshot (docs : list InputDocument) (s : AppState) : AppState :=
  with_entries (map entry_of_document docs) s.

Definition onSummariesSnapshot (docs : list SummaryDocument) (s : AppState)
  : AppState :=
  with_summaries (map summary_of_document docs) s.

(** The values of the hooks at the first render; [today] is [new Date()]. *)
Definition initialState (today : LocalDate) : AppState :=
  {| teamName := lit "";
     activeTeam := None;
     weekKey := getWeekKey today;
     memberName := lit "";
     update := lit "";
     entries := [];
     summaries := [];
     loadingAi := false;
     error := lit "" |}.

(** The time value [Date.UTC] gives for the fields of a date. *)
Definition utcMidnight (date : LocalDate) : Z :=
  JsDate.UTC (getFullYear date) (getMonth date) (getDate date).

(** A string with a first and a last code unit that are not white space. *)
Definition clean (s : jsstring) : Prop :=
  (exists c, head s = Some c /\ isWhiteSpace c = false)
  /\ (exists c, last s = Some c /\ isWhiteSpace c = false).

(** The calls that leave the component: to the store and to the network. *)
Definition is_external (ev : Event) : bool :=
  match ev with
  | Call_addDoc _ _ | Call_fetch _ => true
  | _ => false
  end.

Definition is_fetch (ev : Event) : bool :=
  match ev with
  | Call_fetch _ => true
  | _ => false
  end.

(** More sample inputs. *)
Module Scenario.

(** Two of the Firebase variables are missing or empty. *)
Definition env_partial : ImportMetaEnv := {|
  VITE_GEMINI_API_KEY := Some (lit "gemini-key");
  VITE_FIREBASE_API_KEY := Some (lit "key");
  VITE_FIREBASE_AUTH_DOMAIN := Some (lit "");
  VITE_FIREBASE_PROJECT_ID := Some (lit "app");
  VITE_FIREBASE_STORAGE_BUCKET := Some (lit "app.appspot.com");
  VITE_FIREBASE_MESSAGING_SENDER_ID := None;
  VITE_FIREBASE_APP_ID := Some (lit "1:1:web:1")
|}.

Definition w_unconfigured : World := {|
  env := env_partial;
  addDoc_reply := fun _ _ => Returned (lit "doc1");
  fetch_reply := fun _ => Returned Sample.reply_ok
|}.

(** The store is configured but the inference credential is missing. *)
Definition w_no_credential : World := {|
  env := {|
    VITE_GEMINI_API_KEY := None;
    VITE_FIREBASE_API_KEY := Some (lit "key");
    VITE_FIREBASE_AUTH_DOMAIN := Some (lit "app.firebaseapp.com");
    VITE_FIREBASE_PROJECT_ID := Some (lit "app");
    VITE_FIREBASE_STORAGE_BUCKET := Some (lit "app.appspot.com");
    VITE_FIREBASE_MESSAGING_SENDER_ID := Some (lit "1");
    VITE_FIREBASE_APP_ID := Some (lit "1:1:web:1")
  |};
  addDoc_reply := fun _ _ => Returned (lit "doc1");
  fetch_reply := fun _ => Returned Sample.reply_ok
|}.

(** The model answers with a body that has no candidate text. *)
Definition w_no_candidate : World := {|
  env := Sample.env_ok;
  addDoc_reply := fun _ _ => Returned (lit "doc1");
  fetch_reply := fun _ =>
    Returned {| ok := true; body_text := Returned (lit "{}");
                body_json := Returned None |}
|}.

Definition signed_out_rejected : AuthWorld := {|
  currentUser := false;
  signIn_reply := Thrown {| message := lit "auth/operation-not-allowed" |}
|}.

Definition monday : LocalDate :=
  {| getFullYear := 2026; getMonth := 2; getDate := 2 |}.

Definition sunday : LocalDate :=
  {| getFullYear := 2026; getMonth := 2; getDate := 8 |}.

End Scenario.

(** Splits the membership [H] of a call in the calls listed by a run. *)
Ltac in_trace H :=
  cbn in H;
  repeat match type of H with
         | _ \/ _ => destruct H as [H | H]
         | False => destruct H
         | _ = _ => discriminate H
         end.

(** * Properties *)

(** ** Strings *)

Lemma strict_eq_true (a b : jsstring) : strict_eq a b = true <-> a = b.
Proof.
  revert b; induction a as [|x a IH]; intros [|y b]; simpl; split;
    try congruence; try reflexivity.
  - intros H. apply andb_true_iff in H as [Hxy Hab].
    apply N.eqb_eq in Hxy. apply IH in Hab. congruence.
  - intros H. injection H as -> ->.
    apply andb_true_iff. split; [apply N.eqb_refl | now apply IH].
Qed.

Lemma includes_refl (s : jsstring) : includes s s.
Proof. exists [], []. now rewrite app_nil_r. Qed.

Lemma includes_app_l (s t sub : jsstring) : includes s sub -> includes (s ++ t) sub.
Proof.
  intros (pre & post & ->). exists pre, (post ++ t).
  now rewrite <- !app_assoc.
Qed.

Lemma includes_app_r (s t sub : jsstring) : includes t sub -> includes (s ++ t) sub.
Proof.
  intros (pre & post & ->). exists (s ++ pre), post.
  now rewrite <- !app_assoc.
Qed.

Lemma includes_join (sep : jsstring) (parts : list jsstring) (p : jsstring) :
  In p parts -> includes (join sep parts) p.
Proof.
  induction parts as [|q parts IH]; intros Hin; [destruct Hin|].
  destruct Hin as [-> | Hin].
  - destruct parts; simpl; [apply includes_refl|].
    apply includes_app_l, includes_refl.
  - destruct parts as [|q' parts]; [destruct Hin|].
    change (join sep (q :: q' :: parts)) with (q ++ sep ++ join sep (q' :: parts)).
    now apply includes_app_r, includes_app_r, IH.
Qed.

(** ** Dates *)

Module JsDateFacts.
Import JsDate.

Lemma DayFromYear_step (y : Z) : DayFromYear (y + 1) = DayFromYear y + DaysInYear y.
Proof.
  unfold DayFromYear, DaysInYear, InLeapYear.
  replace (y + 1 - 1970) with (y - 1969) by lia.
  replace (y + 1 - 1969) with (y - 1968) by lia.
  replace (y + 1 - 1901) with (y - 1900) by lia.
  replace (y + 1 - 1601) with (y - 1600) by lia.
  destruct (Z.eqb_spec (y mod 4) 0), (Z.eqb_spec (y mod 100) 0),
    (Z.eqb_spec (y mod 400) 0);
    simpl; Z.div_mod_to_equations; lia.
Qed.

Lemma year_floor_le (d : Z) : DayFromYear (year_floor d) <= d.
Proof.
  unfold year_floor, DayFromYear.
  destruct (Z.leb_spec 0 d); Z.div_mod_to_equations; lia.
Qed.

Lemma year_search_spec (fuel : nat) (y d : Z) :
  DayFromYear y <= d ->
  d - DayFromYear y < 365 * Z.of_nat fuel ->
  DayFromYear (year_search fuel y d) <= d < DayFromYear (year_search fuel y d + 1).
Proof.
  revert y. induction fuel as [|fuel IH]; intros y Hle Hlt; [lia|].
  simpl. destruct (Z.leb_spec (DayFromYear (y + 1)) d) as [Hnext|Hnext].
  - apply IH; [exact Hnext|].
    rewrite DayFromYear_step in *. unfold DaysInYear in *.
    destruct (InLeapYear y); lia.
  - lia.
Qed.

(** [YearFromDay] is YearFromTime of ECMAScript: the year whose first day
    is the last one not after [d]. *)
Lemma YearFromDay_spec (d : Z) :
  DayFromYear (YearFromDay d) <= d < DayFromYear (YearFromDay d + 1).
Proof.
  unfold YearFromDay. pose proof (year_floor_le d) as Hle.
  apply year_search_spec; [exact Hle|].
  rewrite Z2Nat.id by (Z.div_mod_to_equations; lia).
  Z.div_mod_to_equations; lia.
Qed.

Lemma month_search_range (fuel : nat) (leap : bool) (m dwy : Z) :
  m <= month_search fuel leap m dwy <= m + Z.of_nat fuel.
Proof.
  revert m. induction fuel as [|fuel IH]; intros m; simpl; [lia|].
  destruct (_ <=? _); [specialize (IH (m + 1))|]; lia.
Qed.

Lemma MonthFromTime_range (t : Z) : 0 <= MonthFromTime t <= 11.
Proof.
  unfold MonthFromTime.
  pose proof (month_search_range 11 (InLeapYear (YearFromTime t)) 0 (DayWithinYear t)).
  lia.
Qed.

(** Setting the day of the month to the current one plus [k] moves the date
    by [k] days and keeps the time of day. *)
Lemma setUTCDate_shift (t k : Z) :
  setUTCDate t (getUTCDate t + k) = t + k * msPerDay.
Proof.
  unfold setUTCDate, getUTCDate, DateFromTime, MakeDay, MakeDate, DayWithinYear.
  pose proof (MonthFromTime_range t) as Hm.
  rewrite (Z.div_small (MonthFromTime t) 12), (Z.mod_small (MonthFromTime t) 12)
    by lia.
  rewrite Z.add_0_r. unfold Day, TimeWithinDay, msPerDay.
  pose proof (Z.div_mod t 86400000 ltac:(lia)). lia.
Qed.

End JsDateFacts.

(** ** The week key *)

(** [tempDate] ends on a Thursday, whatever the date. *)
Lemma weekThursday_is_thursday (date : LocalDate) :
  JsDate.getUTCDay (weekThursday date) = 4.
Proof.
  unfold weekThursday. cbv zeta.
  rewrite <- Z.add_sub_assoc, JsDateFacts.setUTCDate_shift.
  unfold JsDate.getUTCDay, JsDate.WeekDay, JsDate.Day, or_default, JsDate.msPerDay.
  set (t := JsDate.UTC _ _ _).
  destruct (Z.eqb_spec ((t / 86400000 + 4) mod 7) 0);
    Z.div_mod_to_equations; lia.
Qed.

(** The time value of the Thursday is a UTC midnight, so the difference to
    the first of January is a whole number of days. *)
Example weekThursday_2026_03_02 :
  weekThursday {| getFullYear := 2026; getMonth := 2; getDate := 2 |}
  = JsDate.UTC 2026 2 5.
Proof. vm_compute. reflexivity. Qed.

Example weekThursday_2018_12_31 :
  weekThursday {| getFullYear := 2018; getMonth := 11; getDate := 31 |}
  = JsDate.UTC 2019 0 3.
Proof. vm_compute. reflexivity. Qed.

(** C1: [getWeekKey] of 2026-03-02, a Monday, is ["2026-W10"]; of
    2018-12-31, a Monday, it is ["2019-W01"], whose year component is the
    ISO week-year 2019 and not the calendar year 2018. *)
Theorem getWeekKey_known_dates :
  let d1 := {| getFullYear := 2026; getMonth := 2; getDate := 2 |} in
  let d2 := {| getFullYear := 2018; getMonth := 11; getDate := 31 |} in
  JsDate.getUTCDay (JsDate.UTC 2026 2 2) = 1
  /\ getWeekKey d1 = lit "2026-W10"
  /\ JsDate.getUTCDay (JsDate.UTC 2018 11 31) = 1
  /\ getWeekKey d2 = lit "2019-W01"
  /\ take 4 (getWeekKey d2) = String_of_int 2019
  /\ take 4 (getWeekKey d2) <> String_of_int (getFullYear d2).
Proof.
  cbv zeta. repeat split; try (vm_compute; reflexivity).
  vm_compute. discriminate.
Qed.

(** ** The entries of the week *)

Lemma weekEntries_sublist (r : AppState) : sublist (weekEntries r) (entries r).
Proof.
  unfold weekEntries. induction (entries r) as [|item l IH]; simpl.
  - constructor.
  - destruct (strict_eq _ _); now constructor.
Qed.

Lemma weekEntries_key (r : AppState) :
  Forall (fun item => Entry.weekKey item = weekKey r) (weekEntries r).
Proof.
  unfold weekEntries. apply Forall_forall. intros item Hin.
  apply list_elem_of_In, filter_In in Hin as [_ Heq].
  now apply strict_eq_true.
Qed.

Lemma weekEntries_maximal (r : AppState) (l : list Entry.t) :
  sublist l (entries r) ->
  Forall (fun item => Entry.weekKey item = weekKey r) l ->
  sublist l (weekEntries r).
Proof.
  unfold weekEntries. intros Hsub. induction Hsub as [|x l1 l2 Hsub IH|x l1 l2 Hsub IH];
    intros Hall; simpl.
  - constructor.
  - inversion Hall as [|? ? Hx Hall']; subst.
    apply strict_eq_true in Hx. rewrite Hx. constructor. now apply IH.
  - destruct (strict_eq _ _); [constructor|]; now apply IH.
Qed.

(** C6: for every cached entry list and selected week key, [weekEntries] is
    exactly the sub-list of the entries whose [weekKey] is the selected one,
    in the order of the source list, and it is the only such list.  It is a
    function of the hook values outside the monad of the handlers: computing
    it calls neither the store nor the network. *)
Theorem weekEntries_is_week_view (r : AppState) :
  is_week_view (weekKey r) (entries r) (weekEntries r)
  /\ forall view : list Entry.t,
       is_week_view (weekKey r) (entries r) view -> view = weekEntries r.
Proof.
  split.
  - split; [apply weekEntries_sublist|].
    split; [apply weekEntries_key|]. apply weekEntries_maximal.
  - intros view (Hsub & Hall & Hmax).
    apply (anti_symm sublist).
    + now apply weekEntries_maximal.
    + apply Hmax; [apply weekEntries_sublist | apply weekEntries_key].
Qed.

Lemma weekEntries_is_week_view_witness :
  is_week_view (lit "2026-W09")
    [Sample.bo; Sample.ana; Sample.bo; Sample.ana] [Sample.ana; Sample.ana].
Proof. exact (proj1 (weekEntries_is_week_view Sample.r_mixed)). Defined.

(** ** The prompt *)

Lemma prompt_split (teamName weekKey : jsstring) (updates : list Entry.t) :
  prompt teamName weekKey updates
  = (lit "You are a project manager assistant. Summarize these weekly updates for team "
     ++ teamName
     ++ lit " in concise bullet points with:" ++ [10%N]
     ++ lit "1) Wins" ++ [10%N]
     ++ lit "2) Risks" ++ [10%N]
     ++ lit "3) Next week focus" ++ [10%N; 10%N]
     ++ lit "Week: ")
    ++ weekKey
    ++ ([10%N; 10%N] ++ lit "Updates:" ++ [10%N])
    ++ join [10%N] (map bullet updates).
Proof. unfold prompt, bullet. now rewrite <- !app_assoc. Qed.

(** C7: the prompt ends with the bulleted lines ["- {memberName}: {update}"]
    of the entries, one per entry, joined by line feeds in the order
    supplied, after a header that contains the week key; every entry's line
    and the week key are substrings of the prompt.  For team ["Squad"], week
    ["2026-W09"] and the entry of Ana, the prompt contains
    ["- Ana: Shipped X"] and ["2026-W09"]. *)
Theorem prompt_embeds_updates (teamName weekKey : jsstring) (updates : list Entry.t) :
  (exists header : jsstring,
      prompt teamName weekKey updates
      = header ++ join [10%N] (map bullet updates)
      /\ includes header weekKey)
  /\ (forall (i : nat) (item : Entry.t),
        updates !! i = Some item ->
        includes (prompt teamName weekKey updates) (bullet item))
  /\ includes (prompt teamName weekKey updates) weekKey
  /\ includes (prompt (lit "Squad") (lit "2026-W09") [Sample.ana])
       (lit "- Ana: Shipped X")
  /\ includes (prompt (lit "Squad") (lit "2026-W09") [Sample.ana])
       (lit "2026-W09").
Proof.
  split; [|split; [|split; [|split]]].
  - eexists. split.
    + rewrite prompt_split. rewrite 2!app_assoc. reflexivity.
    + apply includes_app_l, includes_app_r, includes_refl.
  - intros i item Hi. rewrite prompt_split.
    do 3 apply includes_app_r. apply includes_join.
    apply in_map, list_elem_of_In. eapply list_elem_of_lookup_2, Hi.
  - rewrite prompt_split. apply includes_app_r, includes_app_l, includes_refl.
  - rewrite prompt_split. do 3 apply includes_app_r. apply includes_refl.
  - rewrite prompt_split. apply includes_app_r, includes_app_l, includes_refl.
Qed.

Lemma prompt_embeds_updates_witness :
  includes (prompt (lit "Squad") (lit "2026-W09") [Sample.bo; Sample.ana])
    (lit "- Ana: Shipped X").
Proof.
  exact (proj1 (proj2
    (prompt_embeds_updates (lit "Squad") (lit "2026-W09") [Sample.bo; Sample.ana]))
    1%nat Sample.ana eq_refl).
Defined.

(** ** Runs of the handlers *)

Lemma or_else_truthy (a b : jsstring) : truthy b = true -> truthy (or_else a b) = true.
Proof. unfold or_else. destruct (truthy a) eqn:Ha; auto. Qed.

(** [createAiSummary] touches no hook and writes nothing: its outcome and
    its calls are the same from every state. *)
Lemma createAiSummary_frame (w : World) (teamName weekKey : jsstring)
  (updates : list Entry.t) :
  exists (o : Outcome jsstring) (t : list Event),
    writes t = []
    /\ forall s, createAiSummary w teamName weekKey updates s = (o, s, t).
Proof.
  unfold createAiSummary, fetch, bind, log, await, ret, throw.
  destruct (VITE_GEMINI_API_KEY (env w)) as [apiKey|]; [|now eexists _, []].
  destruct (truthy apiKey); simpl; [|now eexists _, []].
  match goal with |- context [fetch_reply w ?q] => destruct (fetch_reply w q) as [resp|e] end;
    [|now eexists _, [_]].
  destruct (ok resp); simpl.
  - destruct (body_json resp) as [data|e]; now eexists _, [_].
  - destruct (body_text resp) as [msg|e]; now eexists _, [_].
Qed.

Lemma run_handleCreateTeam (w : World) (r : AppState) :
  run (handleCreateTeam w) r =
  if negb (truthy (trim (teamName r)))
  then (Returned tt, with_error (lit "Team name is required.") r,
        [Call_preventDefault; Call_setError (lit "");
         Call_setError (lit "Team name is required.")])
  else
    match db w with
    | None =>
        let msg := or_else (firebaseConfigError w) (lit "Firebase is not configured.") in
        (Returned tt, with_error msg r,
         [Call_preventDefault; Call_setError (lit ""); Call_setError msg])
    | Some _ =>
        let doc := TeamDoc (trim (teamName r)) in
        match addDoc_reply w [lit "teams"] doc with
        | Returned teamRef =>
            let team := {| Team.id := teamRef; Team.name := trim (teamName r) |} in
            (Returned tt,
             with_teamName (lit "") (with_activeTeam (Some team) (with_error (lit "") r)),
             [Call_preventDefault; Call_setError (lit "");
              Call_addDoc [lit "teams"] doc;
              Call_setActiveTeam (Some team); Call_setTeamName (lit "")])
        | Thrown e =>
            (Thrown e, with_error (lit "") r,
             [Call_preventDefault; Call_setError (lit "");
              Call_addDoc [lit "teams"] doc])
        end
    end.
Proof.
  unfold run, handleCreateTeam.
  destruct (negb (truthy (trim (teamName r)))); [reflexivity|].
  destruct (db w); [|reflexivity].
  unfold addDoc, bind, await.
  destruct (addDoc_reply w _ _); reflexivity.
Qed.

Lemma run_handleAddEntry (w : World) (r : AppState) :
  run (handleAddEntry w) r =
  match activeTeam r with
  | None =>
      (Returned tt, with_error (lit "Create a team first.") r,
       [Call_preventDefault; Call_setError (lit "");
        Call_setError (lit "Create a team first.")])
  | Some team =>
      match db w with
      | None =>
          let msg := or_else (firebaseConfigError w) (lit "Firebase is not configured.") in
          (Returned tt, with_error msg r,
           [Call_preventDefault; Call_setError (lit ""); Call_setError msg])
      | Some _ =>
          if negb (truthy (trim (memberName r))) || negb (truthy (trim (update r)))
          then (Returned tt, with_error (lit "Member name and update are required.") r,
                [Call_preventDefault; Call_setError (lit "");
                 Call_setError (lit "Member name and update are required.")])
          else
            let path := [lit "teams"; Team.id team; lit "weeklyInputs"] in
            let doc := WeeklyInputDoc (trim (memberName r)) (trim (update r)) (weekKey r) in
            match addDoc_reply w path doc with
            | Returned _ =>
                (Returned tt, with_update (lit "") (with_error (lit "") r),
                 [Call_preventDefault; Call_setError (lit "");
                  Call_addDoc path doc; Call_setUpdate (lit "")])
            | Thrown e =>
                (Thrown e, with_error (lit "") r,
                 [Call_preventDefault; Call_setError (lit ""); Call_addDoc path doc])
            end
      end
  end.
Proof.
  unfold run, handleAddEntry.
  destruct (activeTeam r) as [team|]; [|reflexivity].
  destruct (db w); [|reflexivity].
  destruct (negb (truthy (trim (memberName r))) || negb (truthy (trim (update r))));
    [reflexivity|].
  unfold addDoc, bind, await.
  destruct (addDoc_reply w _ _); reflexivity.
Qed.

(** Past its guards, [handleGenerateSummary] is determined by the outcome
    [o] and the calls [t] of [createAiSummary] and by the store's reply. *)
Lemma run_handleGenerateSummary (w : World) (r : AppState) :
  run (handleGenerateSummary w) r =
  match activeTeam r with
  | None =>
      (Returned tt, with_error (lit "Create a team first.") r,
       [Call_setError (lit ""); Call_setError (lit "Create a team first.")])
  | Some team =>
      match db w with
      | None =>
          let msg := or_else (firebaseConfigError w) (lit "Firebase is not configured.") in
          (Returned tt, with_error msg r, [Call_setError (lit ""); Call_setError msg])
      | Some _ =>
          if (length (weekEntries r) =? 0)%nat
          then
            let msg := lit "Add at least one weekly update before generating summary." in
            (Returned tt, with_error msg r, [Call_setError (lit ""); Call_setError msg])
          else
            let path := [lit "teams"; Team.id team; lit "summaries"] in
            match createAiSummary w (Team.name team) (weekKey r) (weekEntries r) r with
            | (Returned summaryText, _, t) =>
                let doc := SummaryDoc (weekKey r) summaryText in
                match addDoc_reply w path doc with
                | Returned _ =>
                    (Returned tt, with_loadingAi false (with_error (lit "") r),
                     [Call_setError (lit ""); Call_setLoadingAi true] ++ t
                     ++ [Call_addDoc path doc; Call_setLoadingAi false])
                | Thrown e =>
                    (Returned tt, with_loadingAi false (with_error (message e) r),
                     [Call_setError (lit ""); Call_setLoadingAi true] ++ t
                     ++ [Call_addDoc path doc; Call_setError (message e);
                         Call_setLoadingAi false])
                end
            | (Thrown e, _, t) =>
                (Returned tt, with_loadingAi false (with_error (message e) r),
                 [Call_setError (lit ""); Call_setLoadingAi true] ++ t
                 ++ [Call_setError (message e); Call_setLoadingAi false])
            end
      end
  end.
Proof.
  unfold run, handleGenerateSummary.
  destruct (activeTeam r) as [team|]; [|reflexivity].
  destruct (db w); [|reflexivity].
  destruct (length (weekEntries r) =? 0)%nat; [reflexivity|].
  destruct (createAiSummary_frame w (Team.name team) (weekKey r) (weekEntries r))
    as (o & t & _ & Hcall).
  unfold bind at 1 2. simpl.
  unfold try_catch_finally, bind. rewrite !Hcall.
  destruct o as [summaryText|e]; simpl.
  - unfold addDoc, bind, await. simpl.
    destruct (addDoc_reply w _ _); simpl; rewrite <- ?app_assoc; reflexivity.
  - rewrite <- ?app_assoc; reflexivity.
Qed.

Arguments lit : simpl never.

Lemma trim_blank (s : jsstring) : forallb isWhiteSpace s = true -> trim s = [].
Proof.
  intros H. unfold trim, trimStart.
  assert (Hd : dropWhile isWhiteSpace s = []).
  { induction s as [|c s IH]; [reflexivity|]. simpl in *.
    apply andb_true_iff in H as [Hc Hs]. rewrite Hc. now apply IH. }
  now rewrite Hd.
Qed.

(** The three ways [createAiSummary] fails before or at the request: no
    credential, a rejected [fetch], a response that is not [ok]. *)
Lemma createAiSummary_failures (w : World) (teamName weekKey : jsstring)
  (updates : list Entry.t) (s : AppState) :
  let call := createAiSummary w teamName weekKey updates s in
  (truthy_opt (VITE_GEMINI_API_KEY (env w)) = false ->
   call = (Thrown {| message := lit "Missing VITE_GEMINI_API_KEY in .env file." |}, s, []))
  /\ (forall apiKey req,
        VITE_GEMINI_API_KEY (env w) = Some apiKey -> truthy apiKey = true ->
        req = {| url := lit "https://generativelanguage.googleapis.com/v1beta/models/gemini-1.5-flash:generateContent?key="
                        ++ apiKey;
                 method := lit "POST";
                 contentType := lit "application/json";
                 text := prompt teamName weekKey updates |} ->
        (forall e, fetch_reply w req = Thrown e -> call = (Thrown e, s, [Call_fetch req]))
        /\ (forall resp details,
              fetch_reply w req = Returned resp -> ok resp = false ->
              body_text resp = Returned details ->
              call = (Thrown {| message := lit "AI request failed: " ++ details |}, s,
                      [Call_fetch req]))).
Proof.
  unfold createAiSummary. split.
  - destruct (VITE_GEMINI_API_KEY (env w)) as [apiKey|]; simpl; [|reflexivity].
    now intros ->.
  - intros apiKey req -> -> ->. split.
    + intros e He. unfold fetch, bind, log, await. now rewrite He.
    + intros resp details Hr Hok Ht. unfold fetch, bind, log, await.
      rewrite Hr. cbn. now rewrite Hok, Ht.
Qed.

(** [handleGenerateSummary] returns on every run: its [catch] takes every
    error of the model call and of the write. *)
Lemma handleGenerateSummary_returns (w : World) (r : AppState) :
  outcome_of (run (handleGenerateSummary w) r) = Returned tt.
Proof.
  rewrite run_handleGenerateSummary.
  destruct (activeTeam r) as [team|]; [|reflexivity].
  destruct (db w); [|reflexivity].
  destruct (length (weekEntries r) =? 0)%nat; [reflexivity|].
  destruct (createAiSummary _ _ _ _ _) as [[[txt|e] s'] t]; [|reflexivity].
  cbv zeta. destruct (addDoc_reply w _ _); reflexivity.
Qed.

(** The two form handlers throw exactly when the write they reach is
    rejected: no [try] surrounds their [await addDoc]. *)
Lemma handleCreateTeam_throws (w : World) (r : AppState) (e : JsError) :
  outcome_of (run (handleCreateTeam w) r) = Thrown e
  <-> truthy (trim (teamName r)) = true
      /\ db w <> None
      /\ addDoc_reply w [lit "teams"] (TeamDoc (trim (teamName r))) = Thrown e.
Proof.
  rewrite run_handleCreateTeam.
  destruct (truthy (trim (teamName r))); simpl.
  - destruct (db w); simpl.
    + destruct (addDoc_reply w _ _); simpl; split; try easy.
      * now intros [= ->].
      * now intros (_ & _ & [= ->]).
    + split; [discriminate | now intros (_ & H & _)].
  - split; [discriminate | now intros (H & _)].
Qed.

Lemma handleAddEntry_throws (w : World) (r : AppState) (e : JsError) :
  outcome_of (run (handleAddEntry w) r) = Thrown e
  <-> exists team,
      activeTeam r = Some team
      /\ db w <> None
      /\ truthy (trim (memberName r)) = true
      /\ truthy (trim (update r)) = true
      /\ addDoc_reply w [lit "teams"; Team.id team; lit "weeklyInputs"]
           (WeeklyInputDoc (trim (memberName r)) (trim (update r)) (weekKey r))
         = Thrown e.
Proof.
  rewrite run_handleAddEntry.
  destruct (activeTeam r) as [team|]; simpl.
  2:{ split; [discriminate | now intros (? & ? & _)]. }
  destruct (db w); simpl.
  2:{ split; [discriminate | now intros (? & _ & ? & _)]. }
  destruct (truthy (trim (memberName r))); simpl.
  2:{ split; [discriminate | now intros (? & _ & _ & ? & _)]. }
  destruct (truthy (trim (update r))); simpl.
  2:{ split; [discriminate | now intros (? & _ & _ & _ & ? & _)]. }
  destruct (addDoc_reply w _ _) eqn:Hr; simpl; split.
  - discriminate.
  - intros (team' & [= <-] & _ & _ & _ & H).
    discriminate (eq_trans (eq_sym Hr) H).
  - intros [= ->]. now exists team.
  - intros (team' & [= <-] & _ & _ & _ & H).
    now injection (eq_trans (eq_sym Hr) H) as ->.
Qed.

(** ** Errors *)

(** C2: the claim that no operation throws uncaught fails on the two form
    handlers.  With a store that rejects the write, [handleCreateTeam] and
    [handleAddEntry] throw out of the handler and leave the error slot
    empty, while [handleGenerateSummary], whose [await addDoc] sits in a
    [try], returns and records the message. *)
Theorem write_rejection_escapes_form_handlers :
  let e := {| message := lit "Missing or insufficient permissions." |} in
  run (handleCreateTeam Sample.w_denied) Sample.r_fresh
  = (Thrown e, with_error (lit "") Sample.r_fresh,
     [Call_preventDefault; Call_setError (lit "");
      Call_addDoc [lit "teams"] (TeamDoc (lit "Squad"))])
  /\ run (handleAddEntry Sample.w_denied) Sample.r_form
     = (Thrown e, with_error (lit "") Sample.r_form,
        [Call_preventDefault; Call_setError (lit "");
         Call_addDoc [lit "teams"; lit "t1"; lit "weeklyInputs"]
           (WeeklyInputDoc (lit "Ana") (lit "Shipped X") (lit " 2026-W09 "))])
  /\ outcome_of (run (handleGenerateSummary Sample.w_denied) Sample.r_week)
     = Returned tt
  /\ error (state_of (run (handleGenerateSummary Sample.w_denied) Sample.r_week))
     = message e.
Proof. cbv zeta. repeat split; vm_compute; reflexivity. Qed.

(** C3: past the guards of [handleGenerateSummary], when the model call
    throws (no credential, a response that is not [ok], or any other error)
    the run returns, writes no document, leaves in the error slot the
    message of the error, and ends with the loading flag [false]; when the
    model call returns, the loading flag ends [false] as well. *)
Theorem generateSummary_failure_isolation (w : World) (r : AppState)
  (team : Team.t) (d : Firestore) :
  activeTeam r = Some team ->
  db w = Some d ->
  weekEntries r <> [] ->
  let call := createAiSummary w (Team.name team) (weekKey r) (weekEntries r) in
  let res := run (handleGenerateSummary w) r in
  (forall s e,
      outcome_of (call s) = Thrown e ->
      outcome_of res = Returned tt
      /\ writes (trace_of res) = []
      /\ error (state_of res) = message e
      /\ loadingAi (state_of res) = false)
  /\ (forall s summaryText,
        outcome_of (call s) = Returned summaryText ->
        loadingAi (state_of res) = false).
Proof.
  intros Hteam Hdb Hentries call res. subst call res.
  rewrite run_handleGenerateSummary, Hteam, Hdb.
  destruct (weekEntries r) as [|item l] eqn:Hw; [congruence|].
  change (length (item :: l) =? 0)%nat with false. cbv iota zeta.
  destruct (createAiSummary_frame w (Team.name team) (weekKey r) (item :: l))
    as (o & t & Ht & Hcall).
  rewrite (Hcall r). split.
  - intros s e. rewrite (Hcall s). unfold outcome_of. simpl. intros ->.
    unfold trace_of, state_of. simpl. repeat split.
    unfold writes in *. simpl. now rewrite List.filter_app, Ht.
  - intros s txt. rewrite (Hcall s). unfold outcome_of. simpl. intros ->.
    destruct (addDoc_reply w _ _); reflexivity.
Qed.

Lemma generateSummary_failure_isolation_witness :
  error (state_of (run (handleGenerateSummary Sample.w_quota) Sample.r_week))
  = lit "AI request failed: quota exceeded"
  /\ loadingAi (state_of (run (handleGenerateSummary Sample.w_ok) Sample.r_week))
     = false.
Proof.
  split.
  - refine (proj1 (proj2 (proj2
      (proj1 (generateSummary_failure_isolation Sample.w_quota Sample.r_week
                Sample.squad FirestoreHandle _ _ _) Sample.r_week
         {| message := lit "AI request failed: quota exceeded" |} _))));
      [reflexivity | reflexivity | discriminate | reflexivity].
  - refine (proj2 (generateSummary_failure_isolation Sample.w_ok Sample.r_week
                Sample.squad FirestoreHandle _ _ _) Sample.r_week
         (lit "Wins: shipped X") _);
      [reflexivity | reflexivity | discriminate | reflexivity].
Defined.

(** ** Validation and preconditions *)

(** C4, as stated, fails for [handleAddEntry]: without an active team a
    blank member name is answered by the guard on the team, not by the
    validation of the fields. *)
Lemma addEntry_blank_fields_not_always_validation :
  ~ (forall (w : World) (r : AppState),
        truthy (trim (memberName r)) = false \/ truthy (trim (update r)) = false ->
        error (state_of (run (handleAddEntry w) r))
        = lit "Member name and update are required.").
Proof.
  intros H.
  specialize (H Sample.w_ok Sample.r_fresh (or_introl eq_refl)).
  vm_compute in H. discriminate H.
Qed.

(** C4 (amended): [handleCreateTeam] with a team name that is empty after
    trimming returns with the message ["Team name is required."] and writes
    nothing.  [handleAddEntry] with a member name or an update that is empty
    after trimming returns with a message in the error slot and writes
    nothing; the message is ["Member name and update are required."] when a
    team is active and the store is configured. *)
Theorem blank_fields_rejected (w : World) (r : AppState) :
  (truthy (trim (teamName r)) = false ->
   let res := run (handleCreateTeam w) r in
   outcome_of res = Returned tt
   /\ error (state_of res) = lit "Team name is required."
   /\ writes (trace_of res) = [])
  /\ (truthy (trim (memberName r)) = false \/ truthy (trim (update r)) = false ->
      let res := run (handleAddEntry w) r in
      outcome_of res = Returned tt
      /\ truthy (error (state_of res)) = true
      /\ writes (trace_of res) = []
      /\ (forall team d,
            activeTeam r = Some team -> db w = Some d ->
            error (state_of res) = lit "Member name and update are required.")).
Proof.
  split.
  - intros Hblank. cbv zeta. rewrite run_handleCreateTeam, Hblank. now repeat split.
  - intros Hblank. cbv zeta. rewrite run_handleAddEntry.
    assert (Hguard : negb (truthy (trim (memberName r)))
                     || negb (truthy (trim (update r))) = true).
    { destruct Hblank as [-> | ->]; [reflexivity | apply orb_true_r]. }
    destruct (activeTeam r) as [team|]; [|now repeat split].
    destruct (db w) as [d|].
    + rewrite Hguard. now repeat split.
    + cbv zeta. repeat split; [|discriminate].
      now apply or_else_truthy.
Qed.

Lemma blank_fields_rejected_witness :
  error (state_of (run (handleCreateTeam Sample.w_ok)
                     (with_teamName (lit "   ") Sample.r_fresh)))
  = lit "Team name is required."
  /\ error (state_of (run (handleAddEntry Sample.w_ok)
                        (with_update (lit "   ") Sample.r_form)))
     = lit "Member name and update are required.".
Proof.
  split.
  - exact (proj1 (proj2
      (proj1 (blank_fields_rejected Sample.w_ok
                (with_teamName (lit "   ") Sample.r_fresh)) eq_refl))).
  - exact (proj2 (proj2 (proj2
      (proj2 (blank_fields_rejected Sample.w_ok
                (with_update (lit "   ") Sample.r_form)) (or_intror eq_refl))))
      Sample.squad FirestoreHandle eq_refl eq_refl).
Defined.

(** C5: without an active team, [handleAddEntry] and
    [handleGenerateSummary] return with the message
    ["Create a team first."] and write nothing. *)
Theorem no_active_team_rejected (w : World) (r : AppState) :
  activeTeam r = None ->
  (let res := run (handleAddEntry w) r in
   outcome_of res = Returned tt
   /\ error (state_of res) = lit "Create a team first."
   /\ writes (trace_of res) = [])
  /\ (let res := run (handleGenerateSummary w) r in
      outcome_of res = Returned tt
      /\ error (state_of res) = lit "Create a team first."
      /\ writes (trace_of res) = []).
Proof.
  intros Hnone. cbv zeta.
  rewrite run_handleAddEntry, run_handleGenerateSummary, Hnone.
  now repeat split.
Qed.

Lemma no_active_team_rejected_witness :
  error (state_of (run (handleAddEntry Sample.w_ok) Sample.r_fresh))
  = lit "Create a team first."
  /\ error (state_of (run (handleGenerateSummary Sample.w_ok) Sample.r_fresh))
     = lit "Create a team first.".
Proof.
  pose proof (no_active_team_rejected Sample.w_ok Sample.r_fresh eq_refl) as H.
  exact (conj (proj1 (proj2 (proj1 H))) (proj1 (proj2 (proj2 H)))).
Defined.

(** ** Successful runs *)

Lemma succeeded_AddWeeklyInput (w : World) (r : AppState) :
  succeeded w AddWeeklyInput r = true ->
  run (handleAddEntry w) r
  = (Returned tt, with_update (lit "") (with_error (lit "") r),
     trace_of (run (handleAddEntry w) r)).
Proof.
  unfold succeeded, handler. rewrite run_handleAddEntry.
  destruct (activeTeam r) as [team|]; [|now cbn].
  destruct (db w); [|now cbn].
  destruct (negb (truthy (trim (memberName r))) || negb (truthy (trim (update r))));
    [now cbn|].
  cbv zeta.
  remember [lit "teams"; Team.id team; lit "weeklyInputs"] as path.
  remember (WeeklyInputDoc _ _ _) as doc.
  destruct (addDoc_reply w path doc) eqn:Hr; unfold trace_of; cbn; rewrite Hr;
    [reflexivity | discriminate].
Qed.

(** C8: on every successful run of [handleAddEntry] the update field
    becomes the empty string, and the member name and the selected week
    keep their values; of the other hooks only the error slot, cleared at
    the start, changes. *)
Theorem addEntry_success_resets_update_only (w : World) (r : AppState) :
  succeeded w AddWeeklyInput r = true ->
  let s' := state_of (run (handleAddEntry w) r) in
  update s' = lit ""
  /\ memberName s' = memberName r
  /\ weekKey s' = weekKey r
  /\ s' = with_update (lit "") (with_error (lit "") r).
Proof.
  intros Hok. cbv zeta. rewrite (succeeded_AddWeeklyInput w r Hok).
  now repeat split.
Qed.

Lemma addEntry_success_resets_update_only_witness :
  update (state_of (run (handleAddEntry Sample.w_ok) Sample.r_form)) = lit ""
  /\ memberName (state_of (run (handleAddEntry Sample.w_ok) Sample.r_form))
     = lit " Ana"
  /\ weekKey (state_of (run (handleAddEntry Sample.w_ok) Sample.r_form))
     = lit " 2026-W09 ".
Proof.
  pose proof (addEntry_success_resets_update_only Sample.w_ok Sample.r_form eq_refl)
    as (H1 & H2 & H3 & _).
  exact (conj H1 (conj H2 H3)).
Defined.

Lemma acknowledged_is_write (w : World) (t : list Event) :
  writes t = [] -> existsb (acknowledged w) t = false.
Proof.
  unfold writes. induction t as [|ev t IH]; [reflexivity|].
  destruct ev; simpl; try exact IH; discriminate.
Qed.

Lemma succeeded_CreateTeam (w : World) (r : AppState) :
  succeeded w CreateTeam r = true ->
  exists teamRef,
    addDoc_reply w [lit "teams"] (TeamDoc (trim (teamName r))) = Returned teamRef
    /\ state_of (run (handleCreateTeam w) r)
       = with_teamName (lit "")
           (with_activeTeam
              (Some {| Team.id := teamRef; Team.name := trim (teamName r) |})
              (with_error (lit "") r)).
Proof.
  unfold succeeded, handler. rewrite run_handleCreateTeam.
  destruct (negb (truthy (trim (teamName r)))); [now cbn|].
  destruct (db w); [|now cbn].
  cbv zeta.
  remember [lit "teams"] as path.
  remember (TeamDoc _) as doc.
  destruct (addDoc_reply w path doc) as [teamRef|e] eqn:Hr;
    unfold trace_of; cbn; rewrite Hr; [|discriminate].
  intros _. now exists teamRef.
Qed.

Lemma succeeded_GenerateSummary (w : World) (r : AppState) :
  succeeded w GenerateSummary r = true ->
  state_of (run (handleGenerateSummary w) r)
  = with_loadingAi false (with_error (lit "") r).
Proof.
  unfold succeeded, handler. rewrite run_handleGenerateSummary.
  destruct (activeTeam r) as [team|]; [|now cbn].
  destruct (db w); [|now cbn].
  destruct (length (weekEntries r) =? 0)%nat; [now cbn|].
  destruct (createAiSummary_frame w (Team.name team) (weekKey r) (weekEntries r))
    as (o & t & Ht & Hcall).
  rewrite (Hcall r). cbv zeta.
  pose proof (acknowledged_is_write w t Ht) as Hack.
  destruct o as [summaryText|e].
  - remember [lit "teams"; Team.id team; lit "summaries"] as path.
    remember (SummaryDoc _ _) as doc.
    destruct (addDoc_reply w path doc) eqn:Hr; unfold trace_of, state_of;
      cbn [fst snd]; [reflexivity|].
    rewrite !existsb_app, Hack. cbn. now rewrite Hr.
  - unfold trace_of. cbn [snd]. rewrite !existsb_app, Hack. now cbn.
Qed.

(** C9: every operation sets the error slot to the empty string before any
    guard: on every run, whatever the hook values and the replies, that call
    is the first after [preventDefault].  Hence the error slot is empty
    after a successful run, and the error slot at the end of a run does not
    depend on the message it held before, also when the run fails. *)
Theorem operations_clear_error_first (w : World) (op : Operation) (r : AppState) :
  let res := run (handler w op) r in
  (exists rest, trace_of res = preamble op ++ Call_setError (lit "") :: rest)
  /\ (succeeded w op r = true -> error (state_of res) = lit "")
  /\ (forall stale,
        error (state_of (run (handler w op) (with_error stale r)))
        = error (state_of res)).
Proof.
  cbv zeta. split; [|split].
  - destruct op; simpl handler; simpl preamble.
    + rewrite run_handleCreateTeam.
      destruct (negb _); [now eexists|].
      destruct (db w); [|now eexists].
      cbv zeta. destruct (addDoc_reply w _ _); now eexists.
    + rewrite run_handleAddEntry.
      destruct (activeTeam r) as [team|]; [|now eexists].
      destruct (db w); [|now eexists].
      destruct (_ || _); [now eexists|].
      cbv zeta. destruct (addDoc_reply w _ _); now eexists.
    + rewrite run_handleGenerateSummary.
      destruct (activeTeam r) as [team|]; [|now eexists].
      destruct (db w); [|now eexists].
      destruct (_ =? _)%nat; [now eexists|].
      destruct (createAiSummary _ _ _ _ _) as [[[txt|e] s'] t]; [|now eexists].
      cbv zeta. destruct (addDoc_reply w _ _); now eexists.
  - intros Hok. destruct op; simpl handler.
    + destruct (succeeded_CreateTeam w r Hok) as (teamRef & _ & ->). reflexivity.
    + now rewrite (succeeded_AddWeeklyInput w r Hok).
    + now rewrite (succeeded_GenerateSummary w r Hok).
  - intros stale. destruct op; simpl handler.
    + rewrite !run_handleCreateTeam.
      change (teamName (with_error stale r)) with (teamName r).
      destruct (negb _); [reflexivity|].
      destruct (db w); [|reflexivity].
      cbv zeta. destruct (addDoc_reply w _ _); reflexivity.
    + rewrite !run_handleAddEntry.
      change (activeTeam (with_error stale r)) with (activeTeam r).
      change (memberName (with_error stale r)) with (memberName r).
      change (update (with_error stale r)) with (update r).
      change (weekKey (with_error stale r)) with (weekKey r).
      destruct (activeTeam r) as [team|]; [|reflexivity].
      destruct (db w); [|reflexivity].
      destruct (_ || _); [reflexivity|].
      cbv zeta. destruct (addDoc_reply w _ _); reflexivity.
    + rewrite !run_handleGenerateSummary.
      change (activeTeam (with_error stale r)) with (activeTeam r).
      change (weekEntries (with_error stale r)) with (weekEntries r).
      change (weekKey (with_error stale r)) with (weekKey r).
      destruct (activeTeam r) as [team|]; [|reflexivity].
      destruct (db w); [|reflexivity].
      destruct (_ =? _)%nat; [reflexivity|].
      destruct (createAiSummary_frame w (Team.name team) (weekKey r) (weekEntries r))
        as (o & t & _ & Hcall).
      rewrite !Hcall. destruct o as [txt|e]; [|reflexivity].
      cbv zeta. destruct (addDoc_reply w _ _); reflexivity.
Qed.

Lemma operations_clear_error_first_witness :
  error (state_of (run (handleGenerateSummary Sample.w_ok) Sample.r_week)) = lit "".
Proof.
  exact (proj1 (proj2
    (operations_clear_error_first Sample.w_ok GenerateSummary Sample.r_week))
    eq_refl).
Defined.

(** ** What is persisted *)

(** C10: the only document [handleCreateTeam] writes holds the trimmed team
    name, and after a successful run the active team carries the id of the
    new reference and that trimmed name; the only document [handleAddEntry]
    writes holds the trimmed member name, the trimmed update and the week
    key exactly as the form field holds it, whatever it is.  Past the guards
    the write is made. *)
Theorem persisted_fields_are_trimmed (w : World) (r : AppState) :
  (forall ev,
      In ev (writes (trace_of (run (handleCreateTeam w) r))) ->
      ev = Call_addDoc [lit "teams"] (TeamDoc (trim (teamName r))))
  /\ (truthy (trim (teamName r)) = true -> db w <> None ->
      writes (trace_of (run (handleCreateTeam w) r))
      = [Call_addDoc [lit "teams"] (TeamDoc (trim (teamName r)))])
  /\ (succeeded w CreateTeam r = true ->
      exists teamRef,
        addDoc_reply w [lit "teams"] (TeamDoc (trim (teamName r))) = Returned teamRef
        /\ activeTeam (state_of (run (handleCreateTeam w) r))
           = Some {| Team.id := teamRef; Team.name := trim (teamName r) |})
  /\ (forall ev,
        In ev (writes (trace_of (run (handleAddEntry w) r))) ->
        exists team,
          activeTeam r = Some team
          /\ ev = Call_addDoc [lit "teams"; Team.id team; lit "weeklyInputs"]
                    (WeeklyInputDoc (trim (memberName r)) (trim (update r))
                       (weekKey r)))
  /\ (forall team,
        activeTeam r = Some team -> db w <> None ->
        truthy (trim (memberName r)) = true -> truthy (trim (update r)) = true ->
        writes (trace_of (run (handleAddEntry w) r))
        = [Call_addDoc [lit "teams"; Team.id team; lit "weeklyInputs"]
             (WeeklyInputDoc (trim (memberName r)) (trim (update r)) (weekKey r))]).
Proof.
  split; [|split; [|split; [|split]]].
  - intros ev. rewrite run_handleCreateTeam.
    destruct (negb _); [intros []|].
    destruct (db w); [|intros []].
    cbv zeta. destruct (addDoc_reply w _ _); (intros [<-|[]]; reflexivity).
  - intros Hname Hdb. rewrite run_handleCreateTeam, Hname.
    destruct (db w); [|congruence].
    simpl negb. cbv iota zeta. destruct (addDoc_reply w _ _); reflexivity.
  - intros Hok. destruct (succeeded_CreateTeam w r Hok) as (teamRef & Hr & ->).
    now exists teamRef.
  - intros ev. rewrite run_handleAddEntry.
    destruct (activeTeam r) as [team|]; [|intros []].
    destruct (db w); [|intros []].
    destruct (_ || _); [intros []|].
    cbv zeta. destruct (addDoc_reply w _ _);
      (intros [<-|[]]; exists team; split; reflexivity).
  - intros team Hteam Hdb Hmember Hupdate.
    rewrite run_handleAddEntry, Hteam, Hmember, Hupdate.
    destruct (db w); [|congruence].
    simpl orb. cbv iota zeta. destruct (addDoc_reply w _ _); reflexivity.
Qed.

Lemma persisted_fields_are_trimmed_witness :
  writes (trace_of (run (handleCreateTeam Sample.w_ok) Sample.r_fresh))
  = [Call_addDoc [lit "teams"] (TeamDoc (lit "Squad"))]
  /\ activeTeam (state_of (run (handleCreateTeam Sample.w_ok) Sample.r_fresh))
     = Some {| Team.id := lit "doc1"; Team.name := lit "Squad" |}
  /\ writes (trace_of (run (handleAddEntry Sample.w_ok) Sample.r_form))
     = [Call_addDoc [lit "teams"; lit "t1"; lit "weeklyInputs"]
          (WeeklyInputDoc (lit "Ana") (lit "Shipped X") (lit " 2026-W09 "))].
Proof.
  pose proof (persisted_fields_are_trimmed Sample.w_ok Sample.r_fresh)
    as (_ & Hteam & Hactive & _).
  pose proof (persisted_fields_are_trimmed Sample.w_ok Sample.r_form)
    as (_ & _ & _ & _ & Hentry).
  split; [|split].
  - apply Hteam; [reflexivity | discriminate].
  - destruct (Hactive eq_refl) as (teamRef & Hr & Hs).
    injection Hr as <-. exact Hs.
  - apply (Hentry Sample.squad); [reflexivity | discriminate | reflexivity | reflexivity].
Defined.

(** * Further properties *)

(** ** More on the week key *)

Lemma utcMidnight_day (date : LocalDate) :
  utcMidnight date = JsDate.Day (utcMidnight date) * JsDate.msPerDay.
Proof.
  unfold utcMidnight, JsDate.UTC, JsDate.MakeDate, JsDate.Day, JsDate.msPerDay.
  rewrite Z.add_0_r, Z.div_mul by lia. reflexivity.
Qed.

Lemma isoDay_range (t : Z) : 1 <= or_default (JsDate.getUTCDay t) 7 <= 7.
Proof.
  unfold or_default, JsDate.getUTCDay, JsDate.WeekDay.
  destruct (Z.eqb_spec ((JsDate.Day t + 4) mod 7) 0); [lia|].
  Z.div_mod_to_equations; lia.
Qed.

Lemma weekThursday_shift (date : LocalDate) :
  weekThursday date
  = utcMidnight date
    + (4 - or_default (JsDate.getUTCDay (utcMidnight date)) 7) * JsDate.msPerDay.
Proof.
  unfold weekThursday, utcMidnight. cbv zeta.
  now rewrite <- Z.add_sub_assoc, JsDateFacts.setUTCDate_shift.
Qed.


Lemma Day_shift (t k : Z) : JsDate.Day (t + k * JsDate.msPerDay) = JsDate.Day t + k.
Proof. unfold JsDate.Day, JsDate.msPerDay. now rewrite Z.div_add by lia. Qed.

Lemma weekThursday_day (date : LocalDate) :
  weekThursday date = JsDate.Day (weekThursday date) * JsDate.msPerDay.
Proof.
  rewrite weekThursday_shift, Day_shift.
  pose proof (utcMidnight_day date) as H.
  set (k := 4 - or_default (JsDate.getUTCDay (utcMidnight date)) 7).
  clearbody k. set (t := utcMidnight date) in *. clearbody t.
  rewrite Z.mul_add_distr_r. apply (f_equal (fun x => x + k * JsDate.msPerDay)).
  exact H.
Qed.

Lemma two_digits (n : Z) :
  1 <= n <= 53 -> length (padStart (String_of_int n) 2 (lit "0")) = 2%nat.
Proof.
  intros H.
  assert (Hall : forallb
            (fun k => (length (padStart (String_of_int (Z.of_nat k)) 2 (lit "0")) =? 2)%nat)
            (seq 1 53) = true) by (vm_compute; reflexivity).
  rewrite forallb_forall in Hall.
  specialize (Hall (Z.to_nat n)).
  rewrite Z2Nat.id in Hall by lia.
  apply Nat.eqb_eq, Hall, in_seq. lia.
Qed.

Lemma DaysInYear_range (y : Z) : 365 <= JsDate.DaysInYear y <= 366.
Proof. unfold JsDate.DaysInYear. destruct (JsDate.InLeapYear y); lia. Qed.

Lemma week_of_year_range (first day len : Z) :
  first <= day < first + len -> len <= 366 -> 1 <= (day - first) / 7 + 1 <= 53.
Proof. intros H Hlen. Z.div_mod_to_equations; lia. Qed.

Lemma ceil_div_7 (x : Z) : ceil_div (x + 1) 7 = x / 7 + 1.
Proof. unfold ceil_div. Z.div_mod_to_equations; lia. Qed.

Lemma UTC_year_start (year : Z) :
  ~ (0 <= year <= 99) ->
  JsDate.UTC year 0 1 = JsDate.DayFromYear year * JsDate.msPerDay.
Proof.
  intros Hyear. unfold JsDate.UTC, JsDate.MakeDate, JsDate.MakeDay.
  change (0 / 12) with 0. change (0 mod 12) with 0.
  destruct (Z.leb_spec 0 year), (Z.leb_spec year 99); simpl andb; cbv iota;
    try lia; rewrite !Z.add_0_r;
    change (JsDate.monthStart (JsDate.InLeapYear year) 0) with 0; ring.
Qed.





(** ** Trimming *)

Lemma dropWhile_nil {A} (p : A -> bool) (l : list A) :
  dropWhile p l = [] <-> forallb p l = true.
Proof.
  induction l as [|x l IH]; simpl; [easy|].
  destruct (p x); simpl; [exact IH | easy].
Qed.

Lemma dropWhile_head {A} (p : A -> bool) (l : list A) (x : A) (l' : list A) :
  dropWhile p l = x :: l' -> p x = false.
Proof.
  induction l as [|y l IH]; simpl; [discriminate|].
  destruct (p y) eqn:Hy; [exact IH|]. now intros [= -> _].
Qed.

Lemma dropWhile_split {A} (p : A -> bool) (l : list A) :
  exists pre, l = pre ++ dropWhile p l /\ forallb p pre = true.
Proof.
  induction l as [|y l (pre & Hl & Hpre)]; simpl; [now exists []|].
  destruct (p y) eqn:Hy; [|now exists []].
  exists (y :: pre). simpl. rewrite Hy, Hpre. split; [now f_equal | reflexivity].
Qed.

Lemma forallb_rev {A} (p : A -> bool) (l : list A) :
  forallb p (rev l) = forallb p l.
Proof.
  induction l as [|x l IH]; [reflexivity|].
  simpl. rewrite forallb_app, IH. simpl. rewrite andb_true_r. apply andb_comm.
Qed.

(** [trim] removes white space from both ends and nothing else; what is
    left is empty or starts and ends with other code units. *)
Lemma trim_spec (s : jsstring) :
  (exists pre post,
      s = pre ++ trim s ++ post
      /\ forallb isWhiteSpace pre = true
      /\ forallb isWhiteSpace post = true)
  /\ (trim s = [] \/ clean (trim s)).
Proof.
  unfold trim, trimEnd, trimStart.
  destruct (dropWhile_split isWhiteSpace s) as (pre & Hs & Hpre).
  set (s1 := dropWhile isWhiteSpace s) in *.
  destruct (dropWhile_split isWhiteSpace (rev s1)) as (post & Hs1 & Hpost).
  set (d := dropWhile isWhiteSpace (rev s1)) in *.
  assert (Hs1' : s1 = rev d ++ rev post).
  { rewrite <- (rev_involutive s1), Hs1. apply rev_app_distr. }
  split.
  - exists pre, (rev post). split; [now rewrite <- Hs1'|].
    split; [exact Hpre | now rewrite forallb_rev].
  - destruct d as [|x d'] eqn:Hd; [now left|]. right.
    pose proof (dropWhile_head _ _ _ _ Hd) as Hx. split.
    + destruct s1 as [|y s1'] eqn:Es1.
      { simpl in Hs1'. destruct (rev d'); discriminate Hs1'. }
      exists y. split; [|exact (dropWhile_head _ _ _ _ Es1)].
      simpl rev in *. destruct (rev d' ++ [x]) as [|z q] eqn:Hq.
      { destruct (rev d'); discriminate Hq. }
      simpl in Hs1'. injection Hs1' as -> _. reflexivity.
    + exists x. split; [|exact Hx]. simpl. apply last_snoc.
Qed.

Lemma trim_empty (s : jsstring) :
  truthy (trim s) = false <-> forallb isWhiteSpace s = true.
Proof.
  split.
  - intros H. destruct (trim s) eqn:Ht; [|discriminate H].
    destruct (trim_spec s) as ((pre & post & Hs & Hpre & Hpost) & _).
    rewrite Ht in Hs. rewrite Hs. simpl. now rewrite forallb_app, Hpre, Hpost.
  - intros H. now rewrite trim_blank.
Qed.

Lemma trim_clean (s : jsstring) : truthy (trim s) = true -> clean (trim s).
Proof.
  intros H. destruct (trim_spec s) as (_ & [Ht | Hc]); [|exact Hc].
  now rewrite Ht in H.
Qed.

Lemma trim_of_clean (s : jsstring) : clean s -> trim s = s.
Proof.
  intros ((c & Hc & Hws) & (c' & Hc' & Hws')).
  unfold trim, trimStart, trimEnd.
  destruct s as [|x s]; [discriminate Hc|].
  injection Hc as ->. simpl dropWhile at 2. rewrite Hws.
  destruct (rev (c :: s)) as [|y q] eqn:Hr.
  { simpl in Hr. destruct (rev s); discriminate Hr. }
  assert (Hy : y = c').
  { assert (Hl : last (rev (y :: q)) = Some y) by (simpl; apply last_snoc).
    rewrite <- Hr, rev_involutive, Hc' in Hl. congruence. }
  subst y. simpl. rewrite Hws'. rewrite <- Hr. apply rev_involutive.
Qed.

(** Trimming twice is trimming once. *)
Lemma trim_idempotent (s : jsstring) : trim (trim s) = trim s.
Proof.
  destruct (trim_spec s) as (_ & [Ht | Hc]).
  - rewrite Ht. reflexivity.
  - now apply trim_of_clean.
Qed.

(** ** Configuration *)

(** X4: the name the configuration error gives to a missing key,
    built by inserting underscores before capitals and upper-casing, is the
    name of the variable [firebaseConfig] reads that key from. *)
Theorem envName_is_variable (k : Firebase.ConfigKey) :
  Firebase.envName k = configVariable k.
Proof. destruct k; vm_compute; reflexivity. Qed.

Lemma missingFirebaseKeys_spec (e : ImportMetaEnv) (k : Firebase.ConfigKey) :
  In k (Firebase.missingFirebaseKeys e)
  <-> truthy_opt (Firebase.firebaseConfig e k) = false.
Proof.
  unfold Firebase.missingFirebaseKeys. rewrite filter_In, negb_true_iff.
  split; [now intros [_ H]|]. intros H. split; [|exact H].
  destruct k; simpl; tauto.
Qed.

Lemma db_None (e : ImportMetaEnv) :
  Firebase.db e = None <-> Firebase.missingFirebaseKeys e <> [].
Proof.
  unfold Firebase.db, Firebase.firebaseConfigError.
  destruct (Firebase.missingFirebaseKeys e) as [|k l]; simpl.
  - split; [discriminate | congruence].
  - split; [discriminate | reflexivity].
Qed.

(** X5: [db] and [auth] are [null] exactly when one of the six
    required values is undefined or empty; otherwise the configuration error is
    the empty string; and the error names the variable of every missing
    value. *)
Theorem firebaseConfigError_lists_missing (e : ImportMetaEnv) :
  (Firebase.db e = None
   <-> exists k, truthy_opt (Firebase.firebaseConfig e k) = false)
  /\ (auth e = None <-> Firebase.db e = None)
  /\ (Firebase.db e <> None -> Firebase.firebaseConfigError e = lit "")
  /\ (forall k,
        truthy_opt (Firebase.firebaseConfig e k) = false ->
        includes (Firebase.firebaseConfigError e) (configVariable k)).
Proof.
  split; [|split; [|split]].
  - rewrite db_None. split.
    + destruct (Firebase.missingFirebaseKeys e) as [|k l] eqn:Hm; [congruence|].
      intros _. exists k. apply missingFirebaseKeys_spec. rewrite Hm. now left.
    + intros (k & Hk). apply missingFirebaseKeys_spec in Hk.
      intros Hm. now rewrite Hm in Hk.
  - unfold auth, Firebase.db.
    destruct (truthy (Firebase.firebaseConfigError e)); easy.
  - unfold Firebase.db, Firebase.firebaseConfigError.
    destruct (Firebase.missingFirebaseKeys e); simpl; [reflexivity | congruence].
  - intros k Hk. apply missingFirebaseKeys_spec in Hk.
    unfold Firebase.firebaseConfigError.
    destruct (Firebase.missingFirebaseKeys e) as [|k0 l] eqn:Hm; [destruct Hk|].
    change (length (k0 :: l) =? 0)%nat with false. cbv iota.
    apply includes_app_r, includes_app_l, includes_join.
    rewrite <- envName_is_variable. now apply in_map.
Qed.

Lemma firebaseConfigError_lists_missing_witness :
  includes (Firebase.firebaseConfigError Scenario.env_partial)
    (lit "VITE_FIREBASE_MESSAGING_SENDER_ID").
Proof.
  exact (proj2 (proj2 (proj2 (firebaseConfigError_lists_missing Scenario.env_partial)))
           Firebase.messagingSenderId eq_refl).
Defined.

Lemma db_None_message (w : World) :
  db w = None ->
  truthy (firebaseConfigError w) = true
  /\ or_else (firebaseConfigError w) (lit "Firebase is not configured.")
     = firebaseConfigError w.
Proof.
  unfold db, firebaseConfigError, Firebase.db, or_else.
  destruct (truthy (Firebase.firebaseConfigError (env w))); [easy | discriminate].
Qed.

(** ** The model call *)

(** X7: [createAiSummary] changes no hook; without a credential it
    throws before any request; with one it makes exactly one request, a POST
    to the endpoint with the key in the URL and the prompt as text. *)
Theorem createAiSummary_request (w : World) (teamName weekKey : jsstring)
  (updates : list Entry.t) (s : AppState) :
  state_of (createAiSummary w teamName weekKey updates s) = s
  /\ (truthy_opt (VITE_GEMINI_API_KEY (env w)) = false ->
      createAiSummary w teamName weekKey updates s
      = (Thrown {| message := lit "Missing VITE_GEMINI_API_KEY in .env file." |}, s, []))
  /\ (forall apiKey,
        VITE_GEMINI_API_KEY (env w) = Some apiKey -> truthy apiKey = true ->
        trace_of (createAiSummary w teamName weekKey updates s)
        = [Call_fetch
             {| url := lit "https://generativelanguage.googleapis.com/v1beta/models/gemini-1.5-flash:generateContent?key="
                       ++ apiKey;
                method := lit "POST";
                contentType := lit "application/json";
                text := prompt teamName weekKey updates |}]).
Proof.
  split; [|split].
  - destruct (createAiSummary_frame w teamName weekKey updates) as (o & t & _ & H).
    now rewrite H.
  - apply createAiSummary_failures.
  - intros apiKey Hkey Htruthy. unfold createAiSummary. rewrite Hkey, Htruthy.
    unfold fetch, bind, log, await. cbn [negb].
    match goal with |- context [fetch_reply w ?q] => destruct (fetch_reply w q) as [resp|e] end;
      [|reflexivity].
    cbn. destruct (ok resp); cbn.
    + destruct (body_json resp); reflexivity.
    + destruct (body_text resp); reflexivity.
Qed.

Lemma createAiSummary_request_witness :
  createAiSummary Scenario.w_no_credential (lit "Squad") (lit "2026-W09")
    [Sample.ana] Sample.r_week
  = (Thrown {| message := lit "Missing VITE_GEMINI_API_KEY in .env file." |},
     Sample.r_week, []).
Proof.
  exact (proj1 (proj2 (createAiSummary_request Scenario.w_no_credential
                         (lit "Squad") (lit "2026-W09") [Sample.ana] Sample.r_week))
           eq_refl).
Defined.

(** X8: [createAiSummary] returns exactly when the credential is set,
    the request resolves with an [ok] response and its JSON body parses; the
    value is the text of the first candidate, or ["No summary returned."]
    when the body has none. *)
Theorem createAiSummary_returns (w : World) (teamName weekKey : jsstring)
  (updates : list Entry.t) (s : AppState) (summaryText : jsstring) :
  outcome_of (createAiSummary w teamName weekKey updates s) = Returned summaryText
  <-> exists apiKey resp data,
      VITE_GEMINI_API_KEY (env w) = Some apiKey
      /\ truthy apiKey = true
      /\ fetch_reply w
           {| url := lit "https://generativelanguage.googleapis.com/v1beta/models/gemini-1.5-flash:generateContent?key="
                     ++ apiKey;
              method := lit "POST";
              contentType := lit "application/json";
              text := prompt teamName weekKey updates |}
         = Returned resp
      /\ ok resp = true
      /\ body_json resp = Returned data
      /\ summaryText = match data with
                       | Some t => t
                       | None => lit "No summary returned."
                       end.
Proof.
  unfold createAiSummary.
  destruct (VITE_GEMINI_API_KEY (env w)) as [apiKey|].
  2:{ split; [discriminate | now intros (? & ? & ? & ? & _)]. }
  destruct (truthy apiKey) eqn:Hkey; cbn [negb].
  2:{ split; [discriminate|]. intros (? & ? & ? & [= <-] & ? & _). congruence. }
  unfold fetch, bind, log, await.
  remember {| url := _; method := _; contentType := _; text := _ |} as req.
  destruct (fetch_reply w req) as [resp|e] eqn:Hreply; subst req.
  2:{ split; [discriminate|]. intros (? & ? & ? & [= <-] & _ & H & _).
      discriminate (eq_trans (eq_sym Hreply) H). }
  cbn. destruct (ok resp) eqn:Hok; cbn.
  - destruct (body_json resp) as [data|e] eqn:Hjson; cbn; split.
    + intros [= <-]. now exists apiKey, resp, data.
    + intros (? & resp' & data' & [= <-] & _ & H & _ & Hj & ->).
      injection (eq_trans (eq_sym Hreply) H) as <-.
      injection (eq_trans (eq_sym Hjson) Hj) as <-. reflexivity.
    + discriminate.
    + intros (? & resp' & data' & [= <-] & _ & H & _ & Hj & _).
      injection (eq_trans (eq_sym Hreply) H) as <-.
      discriminate (eq_trans (eq_sym Hjson) Hj).
  - split.
    + destruct (body_text resp); discriminate.
    + intros (? & resp' & data' & [= <-] & _ & H & Hok' & _).
      injection (eq_trans (eq_sym Hreply) H) as <-. congruence.
Qed.

Lemma createAiSummary_returns_witness :
  outcome_of (createAiSummary Scenario.w_no_candidate (lit "Squad") (lit "2026-W09")
                [Sample.ana] Sample.r_week)
  = Returned (lit "No summary returned.").
Proof.
  apply (proj2 (createAiSummary_returns Scenario.w_no_candidate (lit "Squad")
                  (lit "2026-W09") [Sample.ana] Sample.r_week
                  (lit "No summary returned."))).
  eexists _, _, None. repeat split; reflexivity.
Defined.

(** ** When the handlers reach the store *)

(** X9: [handleCreateTeam] attempts no write exactly when the team
    name is only white space or the store is not configured;
    [handleAddEntry] exactly when no team is active, the store is not
    configured, or the member name or the update is only white space. *)
Theorem writes_attempted_iff (w : World) (r : AppState) :
  (writes (trace_of (run (handleCreateTeam w) r)) = []
   <-> forallb isWhiteSpace (teamName r) = true \/ db w = None)
  /\ (writes (trace_of (run (handleAddEntry w) r)) = []
      <-> activeTeam r = None \/ db w = None
          \/ forallb isWhiteSpace (memberName r) = true
          \/ forallb isWhiteSpace (update r) = true).
Proof.
  rewrite <- !trim_empty. split.
  - rewrite run_handleCreateTeam.
    destruct (truthy (trim (teamName r))); simpl negb; cbv iota.
    + destruct (db w); cbv zeta.
      * destruct (addDoc_reply w _ _); unfold writes, trace_of; cbn;
          (split; [discriminate | now intros [? | ?]]).
      * split; [now right | reflexivity].
    + split; [now left | reflexivity].
  - rewrite run_handleAddEntry.
    destruct (activeTeam r) as [team|]; [|split; [now left | reflexivity]].
    destruct (db w); [|split; [now right; left | reflexivity]].
    destruct (truthy (trim (memberName r))); simpl negb; simpl orb;
      [|split; [now right; right; left | reflexivity]].
    destruct (truthy (trim (update r))); simpl negb; cbv iota;
      [|split; [now right; right; right | reflexivity]].
    cbv zeta. destruct (addDoc_reply w _ _); unfold writes, trace_of; cbn;
      (split; [discriminate | now intros [? | [? | [? | ?]]]]).
Qed.

Lemma writes_attempted_iff_witness :
  writes (trace_of (run (handleCreateTeam Sample.w_ok)
                      (with_teamName (lit "   ") Sample.r_fresh))) = [].
Proof.
  exact (proj2 (proj1 (writes_attempted_iff Sample.w_ok
                         (with_teamName (lit "   ") Sample.r_fresh)))
           (or_introl eq_refl)).
Defined.

Lemma handleCreateTeam_addDoc (w : World) (r : AppState)
  (path : list jsstring) (doc : Doc) :
  In (Call_addDoc path doc) (trace_of (run (handleCreateTeam w) r)) ->
  truthy (trim (teamName r)) = true
  /\ db w <> None
  /\ path = [lit "teams"]
  /\ doc = TeamDoc (trim (teamName r)).
Proof.
  rewrite run_handleCreateTeam.
  destruct (truthy (trim (teamName r))); simpl negb; cbv iota;
    [|intros H; in_trace H].
  destruct (db w); cbv zeta; [|intros H; in_trace H].
  destruct (addDoc_reply w _ _); intros H; in_trace H;
    injection H as <- <-; now repeat split.
Qed.

Lemma handleAddEntry_addDoc (w : World) (r : AppState)
  (path : list jsstring) (doc : Doc) :
  In (Call_addDoc path doc) (trace_of (run (handleAddEntry w) r)) ->
  exists team,
    activeTeam r = Some team
    /\ db w <> None
    /\ truthy (trim (memberName r)) = true
    /\ truthy (trim (update r)) = true
    /\ path = [lit "teams"; Team.id team; lit "weeklyInputs"]
    /\ doc = WeeklyInputDoc (trim (memberName r)) (trim (update r)) (weekKey r).
Proof.
  rewrite run_handleAddEntry.
  destruct (activeTeam r) as [team|]; [|intros H; in_trace H].
  destruct (db w); cbv zeta; [|intros H; in_trace H].
  destruct (truthy (trim (memberName r))); simpl negb; simpl orb;
    [|intros H; in_trace H].
  destruct (truthy (trim (update r))); simpl negb; cbv iota;
    [|intros H; in_trace H].
  destruct (addDoc_reply w _ _); intros H; in_trace H;
    injection H as <- <-; exists team; now repeat split.
Qed.

(** X10: a team name that is written is not empty, neither starts
    nor ends with white space, and is the typed name without white space
    around it; a member name and an update that are written are not empty and
    neither start nor end with white space. *)
Theorem written_fields_clean (w : World) (r : AppState) :
  (forall path name,
      In (Call_addDoc path (TeamDoc name)) (trace_of (run (handleCreateTeam w) r)) ->
      clean name
      /\ exists pre post,
           teamName r = pre ++ name ++ post
           /\ forallb isWhiteSpace pre = true
           /\ forallb isWhiteSpace post = true)
  /\ (forall path member text key,
        In (Call_addDoc path (WeeklyInputDoc member text key))
          (trace_of (run (handleAddEntry w) r)) ->
        clean member /\ clean text).
Proof.
  split.
  - intros path name H.
    apply handleCreateTeam_addDoc in H as (Hname & _ & _ & [= ->]).
    split; [now apply trim_clean | apply trim_spec].
  - intros path member text key H.
    apply handleAddEntry_addDoc in H as (team & _ & _ & Hm & Hu & _ & [= -> -> _]).
    split; now apply trim_clean.
Qed.

Lemma written_fields_clean_witness :
  clean (lit "Squad").
Proof.
  exact (proj1 (proj1 (written_fields_clean Sample.w_ok Sample.r_fresh)
                  [lit "teams"] (lit "Squad")
                  (or_intror (or_intror (or_introl eq_refl))))).
Defined.

(** ** What the handlers leave alone *)

(** X11: no operation changes the cached entries, the cached
    summaries, the selected week or the member name; a run that is not
    acknowledged by the store changes neither the team name field, the active
    team nor the update field, so the form can be submitted again. *)
Theorem handlers_frame (w : World) (op : Operation) (r : AppState) :
  let s' := state_of (run (handler w op) r) in
  entries s' = entries r
  /\ summaries s' = summaries r
  /\ weekKey s' = weekKey r
  /\ memberName s' = memberName r
  /\ (succeeded w op r = false ->
      teamName s' = teamName r
      /\ activeTeam s' = activeTeam r
      /\ update s' = update r).
Proof.
  cbv zeta. unfold succeeded. destruct op; simpl handler.
  - rewrite run_handleCreateTeam.
    destruct (negb _); [now repeat split|].
    destruct (db w); [|now repeat split].
    cbv zeta. remember [lit "teams"] as path. remember (TeamDoc _) as doc.
    destruct (addDoc_reply w path doc) eqn:Hr; unfold trace_of, state_of; cbn;
      rewrite Hr; now repeat split.
  - rewrite run_handleAddEntry.
    destruct (activeTeam r) as [team|] eqn:Hteam; [|now repeat split].
    destruct (db w); [|now repeat split].
    destruct (_ || _); [now repeat split|].
    cbv zeta. remember [lit "teams"; Team.id team; lit "weeklyInputs"] as path.
    remember (WeeklyInputDoc _ _ _) as doc.
    destruct (addDoc_reply w path doc) eqn:Hr; unfold trace_of, state_of; cbn;
      rewrite Hr; now repeat split.
  - rewrite run_handleGenerateSummary.
    destruct (activeTeam r) as [team|] eqn:Hteam; [|now repeat split].
    destruct (db w); [|now repeat split].
    destruct (_ =? _)%nat; [now repeat split|].
    destruct (createAiSummary _ _ _ _ _) as [[[txt|e] s'] t]; [|now repeat split].
    cbv zeta. destruct (addDoc_reply w _ _); now repeat split.
Qed.

Lemma handlers_frame_witness :
  teamName (state_of (run (handleCreateTeam Sample.w_denied) Sample.r_fresh))
  = lit "  Squad ".
Proof.
  exact (proj1 (proj2 (proj2 (proj2 (proj2
    (handlers_frame Sample.w_denied CreateTeam Sample.r_fresh)))) eq_refl)).
Defined.

(** ** Without the configuration of the store *)

Lemma firebaseConfigError_prefix (e : ImportMetaEnv) :
  truthy (Firebase.firebaseConfigError e) = true ->
  exists rest,
    Firebase.firebaseConfigError e
    = lit "Missing Firebase environment variables: " ++ rest.
Proof.
  unfold Firebase.firebaseConfigError.
  destruct (length (Firebase.missingFirebaseKeys e) =? 0)%nat; [discriminate|].
  intros _. now eexists.
Qed.

(** X6: while the store is not configured no operation calls the
    store or the network or throws; the message it leaves is the
    configuration error or that of an earlier guard, never the fallback
    ["Firebase is not configured."] and never empty. *)
Theorem unconfigured_no_external_call (w : World) (op : Operation) (r : AppState) :
  db w = None ->
  let res := run (handler w op) r in
  outcome_of res = Returned tt
  /\ List.filter is_external (trace_of res) = []
  /\ (error (state_of res) = firebaseConfigError w
      \/ error (state_of res) = lit "Team name is required."
      \/ error (state_of res) = lit "Create a team first.")
  /\ error (state_of res) <> lit "Firebase is not configured."
  /\ error (state_of res) <> lit "".
Proof.
  intros Hdb. cbv zeta.
  destruct (db_None_message w Hdb) as (Htruthy & Hmsg).
  destruct (firebaseConfigError_prefix (env w) Htruthy) as (rest & Hprefix).
  assert (Hne : firebaseConfigError w <> lit "Firebase is not configured."
                /\ firebaseConfigError w <> lit "").
  { unfold firebaseConfigError. rewrite Hprefix. split; discriminate. }
  destruct op; simpl handler.
  - rewrite run_handleCreateTeam, Hdb. cbv zeta. rewrite Hmsg.
    destruct (negb _); unfold outcome_of, trace_of, state_of; cbn;
      repeat split; auto; try discriminate; apply Hne.
  - rewrite run_handleAddEntry, Hdb. cbv zeta. rewrite Hmsg.
    destruct (activeTeam r); unfold outcome_of, trace_of, state_of; cbn;
      repeat split; auto; try discriminate; apply Hne.
  - rewrite run_handleGenerateSummary, Hdb. cbv zeta. rewrite Hmsg.
    destruct (activeTeam r); unfold outcome_of, trace_of, state_of; cbn;
      repeat split; auto; try discriminate; apply Hne.
Qed.

Lemma unconfigured_no_external_call_witness :
  error (state_of (run (handleCreateTeam Scenario.w_unconfigured) Sample.r_fresh))
  <> lit "Firebase is not configured.".
Proof.
  exact (proj1 (proj2 (proj2 (proj2
    (unconfigured_no_external_call Scenario.w_unconfigured CreateTeam
       Sample.r_fresh eq_refl))))).
Defined.

(** ** The summary *)

Lemma createAiSummary_calls (w : World) (teamName weekKey : jsstring)
  (updates : list Entry.t) (s : AppState) :
  trace_of (createAiSummary w teamName weekKey updates s) = []
  \/ exists req,
       trace_of (createAiSummary w teamName weekKey updates s) = [Call_fetch req]
       /\ text req = prompt teamName weekKey updates.
Proof.
  destruct (createAiSummary_request w teamName weekKey updates s) as (_ & Hnone & Hsome).
  destruct (VITE_GEMINI_API_KEY (env w)) as [apiKey|] eqn:Hkey.
  - destruct (truthy apiKey) eqn:Ht.
    + right. eexists. split; [now apply Hsome | reflexivity].
    + left. now rewrite Hnone.
  - left. now rewrite Hnone.
Qed.

(** X12: [handleGenerateSummary] only writes a summary whose
    content the model call returned, under the selected week key in the
    summaries of the active team; past the guards, when the model call
    returns, it attempts exactly that one write. *)
Theorem generateSummary_writes (w : World) (r : AppState) :
  (forall ev,
      In ev (writes (trace_of (run (handleGenerateSummary w) r))) ->
      exists team summaryText,
        activeTeam r = Some team
        /\ weekEntries r <> []
        /\ outcome_of (createAiSummary w (Team.name team) (weekKey r)
                         (weekEntries r) r) = Returned summaryText
        /\ ev = Call_addDoc [lit "teams"; Team.id team; lit "summaries"]
                  (SummaryDoc (weekKey r) summaryText))
  /\ (forall team d summaryText,
        activeTeam r = Some team -> db w = Some d -> weekEntries r <> [] ->
        outcome_of (createAiSummary w (Team.name team) (weekKey r)
                      (weekEntries r) r) = Returned summaryText ->
        writes (trace_of (run (handleGenerateSummary w) r))
        = [Call_addDoc [lit "teams"; Team.id team; lit "summaries"]
             (SummaryDoc (weekKey r) summaryText)]).
Proof.
  split.
  - intros ev. rewrite run_handleGenerateSummary.
    destruct (activeTeam r) as [team|]; [|intros H; in_trace H].
    destruct (db w); cbv zeta; [|intros H; in_trace H].
    destruct (weekEntries r) as [|item l] eqn:Hw; [intros H; in_trace H|].
    change (length (item :: l) =? 0)%nat with false. cbv iota.
    destruct (createAiSummary_frame w (Team.name team) (weekKey r) (item :: l))
      as (o & t & Ht & Hcall).
    rewrite (Hcall r). unfold writes in *.
    destruct o as [txt|e].
    + destruct (addDoc_reply w _ _); unfold trace_of; cbn [snd];
        rewrite !List.filter_app, Ht; intros H; in_trace H;
        exists team, txt; subst ev; repeat split; try discriminate;
        now rewrite (Hcall r).
    + unfold trace_of; cbn [snd].
      rewrite !List.filter_app, Ht. intros H; in_trace H.
  - intros team d txt Hteam Hdb Hw. rewrite run_handleGenerateSummary, Hteam, Hdb.
    destruct (weekEntries r) as [|item l] eqn:Hl; [congruence|].
    change (length (item :: l) =? 0)%nat with false. cbv iota.
    destruct (createAiSummary_frame w (Team.name team) (weekKey r) (item :: l))
      as (o & t & Ht & Hcall).
    rewrite (Hcall r). unfold outcome_of. cbn [fst]. intros ->.
    unfold writes in *. cbv zeta.
    destruct (addDoc_reply w _ _); unfold trace_of; cbn [snd];
      now rewrite !List.filter_app, Ht.
Qed.

Lemma generateSummary_writes_witness :
  writes (trace_of (run (handleGenerateSummary Scenario.w_no_candidate) Sample.r_week))
  = [Call_addDoc [lit "teams"; lit "t1"; lit "summaries"]
       (SummaryDoc (lit "2026-W09") (lit "No summary returned."))].
Proof.
  apply (proj2 (generateSummary_writes Scenario.w_no_candidate Sample.r_week)
           Sample.squad FirestoreHandle (lit "No summary returned."));
    [reflexivity | reflexivity | discriminate | reflexivity].
Defined.

(** X13: a request made by [handleGenerateSummary] carries the
    prompt of the active team's name, the selected week and the entries of
    that week only, of which there is at least one; it is the only request of
    the run. *)
Theorem generateSummary_request (w : World) (r : AppState) (req : Request) :
  In (Call_fetch req) (trace_of (run (handleGenerateSummary w) r)) ->
  exists team,
    activeTeam r = Some team
    /\ db w <> None
    /\ weekEntries r <> []
    /\ text req = prompt (Team.name team) (weekKey r) (weekEntries r)
    /\ Forall (fun item => Entry.weekKey item = weekKey r) (weekEntries r)
    /\ List.filter is_fetch (trace_of (run (handleGenerateSummary w) r))
       = [Call_fetch req].
Proof.
  rewrite run_handleGenerateSummary.
  destruct (activeTeam r) as [team|]; [|intros H; in_trace H].
  destruct (db w); cbv zeta; [|intros H; in_trace H].
  destruct (weekEntries r) as [|item l] eqn:Hw; [intros H; in_trace H|].
  change (length (item :: l) =? 0)%nat with false. cbv iota.
  pose proof (createAiSummary_calls w (Team.name team) (weekKey r) (item :: l) r)
    as Hcalls.
  pose proof (weekEntries_key r) as Hkey. rewrite Hw in Hkey.
  destruct (createAiSummary _ _ _ _ _) as [[o s'] t].
  unfold trace_of in Hcalls. cbn [snd] in Hcalls.
  assert (Hin : forall tail,
             List.filter is_fetch tail = [] ->
             In (Call_fetch req)
               ([Call_setError (lit ""); Call_setLoadingAi true] ++ t ++ tail) ->
             text req = prompt (Team.name team) (weekKey r) (item :: l)
             /\ List.filter is_fetch
                  ([Call_setError (lit ""); Call_setLoadingAi true] ++ t ++ tail)
                = [Call_fetch req]).
  { intros tail Htail H. destruct Hcalls as [-> | (req' & -> & Htext)].
    - cbn in H. destruct H as [H | [H | H]]; try discriminate H.
      exfalso. assert (Hf : In (Call_fetch req) (List.filter is_fetch tail))
        by (apply filter_In; now split).
      now rewrite Htail in Hf.
    - cbn in H. destruct H as [H | [H | [H | H]]]; try discriminate H.
      + injection H as <-. split; [exact Htext|]. cbn. now rewrite Htail.
      + exfalso. assert (Hf : In (Call_fetch req) (List.filter is_fetch tail))
          by (apply filter_In; now split).
        now rewrite Htail in Hf. }
  destruct o as [txt|e]; cbv zeta.
  - destruct (addDoc_reply w _ _); unfold trace_of; cbn [snd]; intros H;
      apply Hin in H as (Htext & Hone); try reflexivity;
      exists team; now repeat split.
  - unfold trace_of; cbn [snd]; intros H.
    apply Hin in H as (Htext & Hone); try reflexivity.
    exists team; now repeat split.
Qed.

Lemma generateSummary_request_witness :
  exists team,
    activeTeam Sample.r_week = Some team
    /\ db Sample.w_ok <> None
    /\ weekEntries Sample.r_week <> [].
Proof.
  destruct (generateSummary_request Sample.w_ok Sample.r_week
              {| url := lit "https://generativelanguage.googleapis.com/v1beta/models/gemini-1.5-flash:generateContent?key="
                        ++ lit "gemini-key";
                 method := lit "POST";
                 contentType := lit "application/json";
                 text := prompt (lit "Squad") (lit "2026-W09") [Sample.ana] |}
              (or_intror (or_intror (or_introl eq_refl))))
    as (team & H1 & H2 & H3 & _).
  exists team. exact (conj H1 (conj H2 H3)).
Defined.

(** X14: the two form handlers leave the loading flag alone;
    [handleGenerateSummary] either stops at a guard, with no outside call and
    the flag untouched, or sets the flag right after clearing the error,
    makes its calls, and resets the flag as its last call. *)
Theorem loading_flag_protocol (w : World) (r : AppState) :
  loadingAi (state_of (run (handleCreateTeam w) r)) = loadingAi r
  /\ loadingAi (state_of (run (handleAddEntry w) r)) = loadingAi r
  /\ (let res := run (handleGenerateSummary w) r in
      (List.filter is_external (trace_of res) = []
       /\ loadingAi (state_of res) = loadingAi r
       /\ forall v, ~ In (Call_setLoadingAi v) (trace_of res))
      \/ (exists mid,
             trace_of res
             = [Call_setError (lit ""); Call_setLoadingAi true] ++ mid
               ++ [Call_setLoadingAi false]
             /\ loadingAi (state_of res) = false
             /\ forall v, ~ In (Call_setLoadingAi v) mid)).
Proof.
  split; [|split].
  - rewrite run_handleCreateTeam.
    destruct (negb _); [reflexivity|]. destruct (db w); [|reflexivity].
    cbv zeta. destruct (addDoc_reply w _ _); reflexivity.
  - rewrite run_handleAddEntry.
    destruct (activeTeam r); [|reflexivity]. destruct (db w); [|reflexivity].
    destruct (_ || _); [reflexivity|].
    cbv zeta. destruct (addDoc_reply w _ _); reflexivity.
  - cbv zeta. rewrite run_handleGenerateSummary.
    destruct (activeTeam r) as [team|].
    2:{ left. repeat split. intros v H. in_trace H. }
    destruct (db w); cbv zeta.
    2:{ left. repeat split. intros v H. in_trace H. }
    destruct (_ =? _)%nat.
    { left. repeat split. intros v H. in_trace H. }
    right.
    pose proof (createAiSummary_calls w (Team.name team) (weekKey r) (weekEntries r) r)
      as Hcalls.
    destruct (createAiSummary _ _ _ _ _) as [[o s'] t].
    unfold trace_of in Hcalls. cbn [snd] in Hcalls.
    assert (Ht : forall v, ~ In (Call_setLoadingAi v) t).
    { intros v H. destruct Hcalls as [-> | (req & -> & _)]; in_trace H. }
    destruct o as [txt|e].
    + destruct (addDoc_reply w _ _); unfold trace_of, state_of; cbn [fst snd].
      * exists (t ++ [Call_addDoc [lit "teams"; Team.id team; lit "summaries"]
                        (SummaryDoc (weekKey r) txt)]).
        rewrite <- !app_assoc. repeat split.
        intros v H. apply in_app_or in H as [H | H]; [now apply (Ht v)|]. in_trace H.
      * exists (t ++ [Call_addDoc [lit "teams"; Team.id team; lit "summaries"]
                        (SummaryDoc (weekKey r) txt); Call_setError (message e)]).
        rewrite <- !app_assoc. repeat split.
        intros v H. apply in_app_or in H as [H | H]; [now apply (Ht v)|]. in_trace H.
    + unfold trace_of, state_of; cbn [fst snd].
      exists (t ++ [Call_setError (message e)]).
      rewrite <- !app_assoc. repeat split.
      intros v H. apply in_app_or in H as [H | H]; [now apply (Ht v)|]. in_trace H.
Qed.

(** X15: when the model call returns and the store rejects the
    summary, [handleGenerateSummary] returns, shows the message of the
    rejection, resets the loading flag, and the run has not succeeded. *)
Theorem generateSummary_write_rejected (w : World) (r : AppState)
  (team : Team.t) (d : Firestore) (summaryText : jsstring) (e : JsError) :
  activeTeam r = Some team ->
  db w = Some d ->
  weekEntries r <> [] ->
  outcome_of (createAiSummary w (Team.name team) (weekKey r) (weekEntries r) r)
  = Returned summaryText ->
  addDoc_reply w [lit "teams"; Team.id team; lit "summaries"]
    (SummaryDoc (weekKey r) summaryText) = Thrown e ->
  let res := run (handleGenerateSummary w) r in
  outcome_of res = Returned tt
  /\ error (state_of res) = message e
  /\ loadingAi (state_of res) = false
  /\ succeeded w GenerateSummary r = false.
Proof.
  intros Hteam Hdb Hw Hcall Hreply. cbv zeta. unfold succeeded. simpl handler.
  rewrite run_handleGenerateSummary, Hteam, Hdb.
  destruct (weekEntries r) as [|item l] eqn:Hl; [congruence|].
  change (length (item :: l) =? 0)%nat with false. cbv iota.
  destruct (createAiSummary_frame w (Team.name team) (weekKey r) (item :: l))
    as (o & t & Ht & Hframe).
  rewrite (Hframe r) in *. unfold outcome_of in Hcall. cbn [fst] in Hcall. subst o.
  cbv zeta. remember [lit "teams"; Team.id team; lit "summaries"] as path.
  remember (SummaryDoc _ _) as doc. rewrite Hreply.
  unfold outcome_of, state_of, trace_of; cbn [fst snd]. repeat split.
  rewrite !existsb_app, (acknowledged_is_write w t Ht). cbn. now rewrite Hreply.
Qed.

Lemma generateSummary_write_rejected_witness :
  error (state_of (run (handleGenerateSummary Sample.w_denied) Sample.r_week))
  = lit "Missing or insufficient permissions.".
Proof.
  exact (proj1 (proj2
    (generateSummary_write_rejected Sample.w_denied Sample.r_week Sample.squad
       FirestoreHandle (lit "Wins: shipped X")
       {| message := lit "Missing or insufficient permissions." |}
       eq_refl eq_refl ltac:(discriminate) eq_refl eq_refl))).
Defined.

(** ** How the operations compose *)

(** X16: the effect on the active team listens to nothing without
    a store or a team, and else to the weekly inputs and the summaries of the
    team, newest first; every write of [handleAddEntry] and of
    [handleGenerateSummary] goes to the collection the first, respectively
    the second, query listens to. *)
Theorem subscriptions_cover_writes (w : World) (r : AppState) :
  (subscriptionEffect w r = [] <-> db w = None \/ activeTeam r = None)
  /\ Forall (fun q => orderByField q = lit "createdAt"
                      /\ orderByDirection q = lit "desc")
       (subscriptionEffect w r)
  /\ (forall path doc,
        In (Call_addDoc path doc) (trace_of (run (handleAddEntry w) r)) ->
        exists team,
          subscriptionEffect w r = [updatesQuery team; summaryQuery team]
          /\ path = collectionPath (updatesQuery team))
  /\ (forall ev,
        In ev (writes (trace_of (run (handleGenerateSummary w) r))) ->
        exists team doc,
          subscriptionEffect w r = [updatesQuery team; summaryQuery team]
          /\ ev = Call_addDoc (collectionPath (summaryQuery team)) doc).
Proof.
  split; [|split; [|split]].
  - unfold subscriptionEffect. destruct (db w); [|now split; [left | ]].
    destruct (activeTeam r).
    + split; [discriminate | intros [H | H]; discriminate H].
    + split; [now right | reflexivity].
  - unfold subscriptionEffect. destruct (db w); [|constructor].
    destruct (activeTeam r); repeat constructor.
  - intros path doc H.
    apply handleAddEntry_addDoc in H as (team & Hteam & Hdb & _ & _ & -> & _).
    exists team. unfold subscriptionEffect. rewrite Hteam.
    destruct (db w); [now split | congruence].
  - intros ev H. pose proof H as Hin. unfold writes in Hin.
    apply filter_In in Hin as [Hin _].
    apply (proj1 (generateSummary_writes w r)) in H
      as (team & txt & Hteam & _ & _ & ->).
    exists team, (SummaryDoc (weekKey r) txt). split; [|reflexivity].
    unfold subscriptionEffect. rewrite Hteam.
    destruct (db w) eqn:Hdb; [reflexivity|].
    exfalso. revert Hin. rewrite run_handleGenerateSummary, Hteam, Hdb.
    intros Hin. in_trace Hin.
Qed.

Lemma subscriptions_cover_writes_witness :
  exists team,
    subscriptionEffect Sample.w_ok Sample.r_form
    = [updatesQuery team; summaryQuery team]
    /\ [lit "teams"; lit "t1"; lit "weeklyInputs"]
       = collectionPath (updatesQuery team).
Proof.
  exact (proj1 (proj2 (proj2 (subscriptions_cover_writes Sample.w_ok Sample.r_form)))
           [lit "teams"; lit "t1"; lit "weeklyInputs"]
           (WeeklyInputDoc (lit "Ana") (lit "Shipped X") (lit " 2026-W09 "))
           (or_intror (or_intror (or_introl eq_refl)))).
Defined.

Lemma loading_flag_protocol_witness :
  loadingAi (state_of (run (handleAddEntry Sample.w_ok) Sample.r_form)) = false.
Proof. exact (proj1 (proj2 (loading_flag_protocol Sample.w_ok Sample.r_form))). Defined.

(** X17: after a successful [handleCreateTeam] the active team
    has the id the store gave to the document of that name, the effect
    listens to its two collections, and [handleAddEntry] with a member name
    and an update that are not blank writes under that id, with the week key
    as it was. *)
Theorem createTeam_then_addEntry (w : World) (r : AppState) :
  succeeded w CreateTeam r = true ->
  let s1 := state_of (run (handleCreateTeam w) r) in
  exists team,
    activeTeam s1 = Some team
    /\ addDoc_reply w [lit "teams"] (TeamDoc (Team.name team)) = Returned (Team.id team)
    /\ subscriptionEffect w s1 = [updatesQuery team; summaryQuery team]
    /\ forall member text,
         truthy (trim member) = true -> truthy (trim text) = true ->
         writes (trace_of (run (handleAddEntry w)
                             (with_update text (with_memberName member s1))))
         = [Call_addDoc [lit "teams"; Team.id team; lit "weeklyInputs"]
              (WeeklyInputDoc (trim member) (trim text) (weekKey r))].
Proof.
  intros Hok. cbv zeta.
  destruct (succeeded_CreateTeam w r Hok) as (teamRef & Hreply & ->).
  assert (Hdb : db w <> None).
  { intros Hdb. revert Hok. unfold succeeded. simpl handler.
    rewrite run_handleCreateTeam, Hdb. destruct (negb _); now cbn. }
  exists {| Team.id := teamRef; Team.name := trim (teamName r) |}.
  split; [reflexivity|]. split; [exact Hreply|]. split.
  - unfold subscriptionEffect. cbn [activeTeam with_teamName with_activeTeam].
    destruct (db w); [reflexivity | congruence].
  - intros member text Hm Ht. rewrite run_handleAddEntry.
    cbn [activeTeam memberName update weekKey with_update with_memberName
         with_teamName with_activeTeam with_error].
    rewrite Hm, Ht. destruct (db w); [|congruence].
    simpl orb. cbv iota zeta. cbn [Team.id].
    destruct (addDoc_reply w [_; _; _] _); reflexivity.
Qed.

Lemma createTeam_then_addEntry_witness :
  exists team,
    activeTeam (state_of (run (handleCreateTeam Sample.w_ok) Sample.r_fresh))
    = Some team
    /\ addDoc_reply Sample.w_ok [lit "teams"] (TeamDoc (Team.name team))
       = Returned (Team.id team).
Proof.
  destruct (createTeam_then_addEntry Sample.w_ok Sample.r_fresh eq_refl)
    as (team & H1 & H2 & _).
  exists team. exact (conj H1 H2).
Defined.

Lemma strict_eq_refl (a : jsstring) : strict_eq a a = true.
Proof. now apply strict_eq_true. Qed.

(** X18: a weekly input that [handleAddEntry] wrote, once a
    snapshot delivers it, is in [weekEntries] as long as the week field is
    unchanged, at the place the snapshot gives it among the entries of the
    week, whatever the week key is. *)
Theorem saved_entry_shows_in_week (w : World) (r : AppState)
  (path : list jsstring) (member text key id : jsstring)
  (before after : list InputDocument) :
  In (Call_addDoc path (WeeklyInputDoc member text key))
    (trace_of (run (handleAddEntry w) r)) ->
  let doc := {| input_id := id; input_memberName := member;
                input_update := text; input_weekKey := key |} in
  let s' := onUpdatesSnapshot (before ++ doc :: after)
              (state_of (run (handleAddEntry w) r)) in
  weekKey s' = key
  /\ In (entry_of_document doc) (weekEntries s')
  /\ weekEntries s'
     = List.filter (fun item => strict_eq (Entry.weekKey item) key)
         (map entry_of_document before)
       ++ entry_of_document doc
          :: List.filter (fun item => strict_eq (Entry.weekKey item) key)
               (map entry_of_document after).
Proof.
  intros H. cbv zeta.
  apply handleAddEntry_addDoc in H as (team & _ & _ & _ & _ & _ & [= -> -> ->]).
  pose proof (handlers_frame w AddWeeklyInput r) as (_ & _ & Hkey & _).
  simpl handler in Hkey.
  assert (Hview : weekEntries
                    (onUpdatesSnapshot
                       (before ++
                        {| input_id := id; input_memberName := trim (memberName r);
                           input_update := trim (update r);
                           input_weekKey := weekKey r |} :: after)
                       (state_of (run (handleAddEntry w) r)))
                  = List.filter (fun item => strict_eq (Entry.weekKey item) (weekKey r))
                      (map entry_of_document before)
                    ++ entry_of_document
                         {| input_id := id; input_memberName := trim (memberName r);
                            input_update := trim (update r);
                            input_weekKey := weekKey r |}
                       :: List.filter
                            (fun item => strict_eq (Entry.weekKey item) (weekKey r))
                            (map entry_of_document after)).
  { unfold weekEntries, onUpdatesSnapshot.
    cbn [entries weekKey with_entries]. rewrite Hkey.
    rewrite map_app, List.filter_app. cbn [map List.filter].
    cbn [entry_of_document Entry.weekKey input_weekKey].
    now rewrite strict_eq_refl. }
  split; [exact Hkey|]. split; [|exact Hview].
  rewrite Hview. apply in_or_app. right. now left.
Qed.

Lemma saved_entry_shows_in_week_witness :
  In {| Entry.id := lit "e9"; Entry.memberName := lit "Ana";
        Entry.update := lit "Shipped X"; Entry.weekKey := lit " 2026-W09 " |}
    (weekEntries
       (onUpdatesSnapshot
          [{| input_id := lit "e9"; input_memberName := lit "Ana";
              input_update := lit "Shipped X"; input_weekKey := lit " 2026-W09 " |}]
          (state_of (run (handleAddEntry Sample.w_ok) Sample.r_form)))).
Proof.
  exact (proj1 (proj2
    (saved_entry_shows_in_week Sample.w_ok Sample.r_form
       [lit "teams"; lit "t1"; lit "weeklyInputs"]
       (lit "Ana") (lit "Shipped X") (lit " 2026-W09 ") (lit "e9") [] []
       (or_intror (or_intror (or_introl eq_refl)))))).
Defined.

(** X19: with a credential set, after such a snapshot
    [handleGenerateSummary] makes a request whose prompt contains the line of
    the saved entry and the week key. *)
Theorem saved_entry_reaches_prompt (w : World) (r : AppState)
  (path : list jsstring) (member body key id : jsstring)
  (before after : list InputDocument) :
  In (Call_addDoc path (WeeklyInputDoc member body key))
    (trace_of (run (handleAddEntry w) r)) ->
  truthy_opt (VITE_GEMINI_API_KEY (env w)) = true ->
  let doc := {| input_id := id; input_memberName := member;
                input_update := body; input_weekKey := key |} in
  let s' := onUpdatesSnapshot (before ++ doc :: after)
              (state_of (run (handleAddEntry w) r)) in
  exists req,
    In (Call_fetch req) (trace_of (run (handleGenerateSummary w) s'))
    /\ includes (text req) (lit "- " ++ member ++ lit ": " ++ body)
    /\ includes (text req) key.
Proof.
  intros H Hcred. cbv zeta.
  destruct (saved_entry_shows_in_week w r path member body key id before after H)
    as (Hkey & Hin & _).
  apply handleAddEntry_addDoc in H as (team & Hteam & Hdb & _ & _ & _ & _).
  set (s' := onUpdatesSnapshot _ _) in *.
  assert (Hteam' : activeTeam s' = Some team).
  { unfold s', onUpdatesSnapshot. cbn [activeTeam with_entries].
    rewrite run_handleAddEntry, Hteam.
    destruct (db w); [|congruence].
    destruct (_ || _); [exact Hteam|].
    cbv zeta. destruct (addDoc_reply w _ _); exact Hteam. }
  destruct (VITE_GEMINI_API_KEY (env w)) as [apiKey|] eqn:Hk; [|discriminate Hcred].
  simpl in Hcred.
  pose proof (proj2 (proj2 (createAiSummary_request w (Team.name team) (weekKey s')
                              (weekEntries s') s')) apiKey Hk Hcred) as Htrace.
  exists {| url := lit "https://generativelanguage.googleapis.com/v1beta/models/gemini-1.5-flash:generateContent?key="
                      ++ apiKey;
            method := lit "POST";
            contentType := lit "application/json";
            text := prompt (Team.name team) (weekKey s') (weekEntries s') |}.
  split; [|split].
  - rewrite run_handleGenerateSummary, Hteam'.
    destruct (db w); [|congruence].
    destruct (length (weekEntries s') =? 0)%nat eqn:Hlen.
    { apply Nat.eqb_eq, length_zero_iff_nil in Hlen. now rewrite Hlen in Hin. }
    destruct (createAiSummary _ _ _ _ _) as [[o s2] t].
    unfold trace_of in Htrace. cbn [snd] in Htrace. subst t.
    destruct o; cbv zeta; [destruct (addDoc_reply w _ _)|];
      unfold trace_of; cbn [snd]; right; right; left; reflexivity.
  - cbn [text]. rewrite prompt_split. do 3 apply includes_app_r.
    apply includes_join.
    change (lit "- " ++ member ++ lit ": " ++ body)
      with (bullet (entry_of_document
                      {| input_id := id; input_memberName := member;
                         input_update := body; input_weekKey := key |})).
    now apply in_map.
  - cbn [text]. rewrite prompt_split, Hkey.
    apply includes_app_r, includes_app_l, includes_refl.
Qed.

Lemma saved_entry_reaches_prompt_witness :
  exists req,
    In (Call_fetch req)
      (trace_of (run (handleGenerateSummary Sample.w_ok)
         (onUpdatesSnapshot
            [{| input_id := lit "e9"; input_memberName := lit "Ana";
                input_update := lit "Shipped X"; input_weekKey := lit " 2026-W09 " |}]
            (state_of (run (handleAddEntry Sample.w_ok) Sample.r_form)))))
    /\ includes (text req) (lit "- " ++ lit "Ana" ++ lit ": " ++ lit "Shipped X")
    /\ includes (text req) (lit " 2026-W09 ").
Proof.
  exact (saved_entry_reaches_prompt Sample.w_ok Sample.r_form
           [lit "teams"; lit "t1"; lit "weeklyInputs"]
           (lit "Ana") (lit "Shipped X") (lit " 2026-W09 ") (lit "e9") [] []
           (or_intror (or_intror (or_introl eq_refl))) eq_refl).
Defined.

Lemma weekKey_first_render (today : LocalDate) (name : jsstring) :
  weekKey (with_teamName name (initialState today)) = getWeekKey today.
Proof. reflexivity. Qed.

(** X20: from the first render, after a team is created the
    first weekly input is written under the id the store gave the team and
    with the week key of today. *)
Theorem first_entry_carries_default_week (w : World) (today : LocalDate)
  (name member body : jsstring) :
  let r := with_teamName name (initialState today) in
  succeeded w CreateTeam r = true ->
  truthy (trim member) = true ->
  truthy (trim body) = true ->
  exists teamRef,
    addDoc_reply w [lit "teams"] (TeamDoc (trim name)) = Returned teamRef
    /\ writes (trace_of (run (handleAddEntry w)
                           (with_update body
                              (with_memberName member
                                 (state_of (run (handleCreateTeam w) r))))))
       = [Call_addDoc [lit "teams"; teamRef; lit "weeklyInputs"]
            (WeeklyInputDoc (trim member) (trim body) (getWeekKey today))].
Proof.
  cbv zeta. intros Hok Hm Hb.
  destruct (createTeam_then_addEntry w _ Hok) as (team & Hteam & _ & _ & Hadd).
  destruct (succeeded_CreateTeam w _ Hok) as (teamRef & Hr & Hs).
  rewrite Hs in Hteam. cbn [activeTeam with_teamName with_activeTeam] in Hteam.
  injection Hteam as <-. specialize (Hadd member body Hm Hb).
  rewrite weekKey_first_render in Hadd.
  cbn [teamName with_teamName] in Hr.
  exists teamRef. split; [exact Hr | exact Hadd].
Qed.

Lemma first_entry_carries_default_week_witness :
  exists teamRef,
    addDoc_reply Sample.w_ok [lit "teams"] (TeamDoc (trim (lit " Squad"))) = Returned teamRef
    /\ writes (trace_of (run (handleAddEntry Sample.w_ok)
                 (with_update (lit "Shipped X")
                    (with_memberName (lit "Ana")
                       (state_of (run (handleCreateTeam Sample.w_ok)
                                    (with_teamName (lit " Squad")
                                       (initialState Scenario.monday))))))))
       = [Call_addDoc [lit "teams"; teamRef; lit "weeklyInputs"]
            (WeeklyInputDoc (trim (lit "Ana")) (trim (lit "Shipped X"))
               (getWeekKey Scenario.monday))].
Proof.
  exact (first_entry_carries_default_week Sample.w_ok Scenario.monday
           (lit " Squad") (lit "Ana") (lit "Shipped X") eq_refl eq_refl eq_refl).
Defined.

(** X21: a run attempts at most one write and at most one
    request, and the two form handlers make no request. *)
Theorem at_most_one_call_each (w : World) (op : Operation) (r : AppState) :
  let t := trace_of (run (handler w op) r) in
  (length (writes t) <= 1)%nat
  /\ (length (List.filter is_fetch t) <= 1)%nat
  /\ (op <> GenerateSummary -> List.filter is_fetch t = []).
Proof.
  cbv zeta. destruct op; simpl handler.
  - rewrite run_handleCreateTeam.
    destruct (negb _); [cbn; repeat split; lia|].
    destruct (db w); [|cbn; repeat split; lia].
    cbv zeta. destruct (addDoc_reply w _ _); cbn; repeat split; lia.
  - rewrite run_handleAddEntry.
    destruct (activeTeam r); [|cbn; repeat split; lia].
    destruct (db w); [|cbn; repeat split; lia].
    destruct (_ || _); [cbn; repeat split; lia|].
    cbv zeta. destruct (addDoc_reply w _ _); cbn; repeat split; lia.
  - rewrite run_handleGenerateSummary.
    destruct (activeTeam r) as [team|]; [|cbn; repeat split; (lia || congruence)].
    destruct (db w); [|cbn; repeat split; (lia || congruence)].
    destruct (_ =? _)%nat; [cbn; repeat split; (lia || congruence)|].
    pose proof (createAiSummary_calls w (Team.name team) (weekKey r) (weekEntries r) r)
      as Hcalls.
    destruct (createAiSummary _ _ _ _ _) as [[o s'] t].
    unfold trace_of in Hcalls. cbn [snd] in Hcalls.
    destruct Hcalls as [-> | (req & -> & _)];
      (destruct o; cbv zeta; [destruct (addDoc_reply w _ _)|]);
      cbn; repeat split; (lia || congruence).
Qed.

Lemma at_most_one_call_each_witness :
  List.filter is_fetch (trace_of (run (handleCreateTeam Sample.w_ok) Sample.r_fresh))
  = [].
Proof.
  exact (proj2 (proj2 (at_most_one_call_each Sample.w_ok CreateTeam Sample.r_fresh))
           ltac:(discriminate)).
Defined.


(** ** Mounting *)

(** X23: the effect at mount never throws and calls neither the
    store nor the network; without configuration it shows the configuration
    error and does not sign in; with a current user it does nothing; else it
    signs in once and shows the message of a rejected sign-in. *)
Theorem mountEffect_outcome (w : World) (a : AuthWorld) (s : AppState) :
  let res := mountEffect w a s in
  outcome_of res = Returned tt
  /\ List.filter is_external (trace_of res) = []
  /\ (db w = None ->
      state_of res = with_error (firebaseConfigError w) s
      /\ mountAuthCalls w a = [])
  /\ (db w <> None -> currentUser a = true ->
      state_of res = s /\ trace_of res = [] /\ mountAuthCalls w a = [])
  /\ (db w <> None -> currentUser a = false ->
      mountAuthCalls w a = [Call_signInAnonymously]
      /\ state_of res
         = match signIn_reply a with
           | Returned _ => s
           | Thrown authError => with_error (message authError) s
           end).
Proof.
  cbv zeta. unfold mountEffect, mountAuthCalls, ensureAnonymousAuth, auth, db,
    firebaseConfigError, Firebase.db.
  destruct (truthy (Firebase.firebaseConfigError (env w))) eqn:Hcfg.
  - repeat split; try congruence.
  - destruct (currentUser a); cbn [negb fst snd].
    + repeat split; try congruence.
    + destruct (signIn_reply a) as [[]|e]; repeat split; try congruence.
Qed.

Lemma mountEffect_outcome_witness :
  state_of (mountEffect Sample.w_ok Scenario.signed_out_rejected Sample.r_fresh)
  = with_error (lit "auth/operation-not-allowed") Sample.r_fresh.
Proof.
  exact (proj2 (proj2 (proj2 (proj2 (proj2
    (mountEffect_outcome Sample.w_ok Scenario.signed_out_rejected Sample.r_fresh))))
    ltac:(discriminate) eq_refl)).
Defined.

(** ** Failures of the model call, as the user sees them *)

(** X24: past the guards, without a credential
    [handleGenerateSummary] shows ["Missing VITE_GEMINI_API_KEY in .env file."],
    makes no call to the network or the store, and resets the loading
    flag. *)
Theorem generateSummary_without_credential (w : World) (r : AppState)
  (team : Team.t) (d : Firestore) :
  activeTeam r = Some team ->
  db w = Some d ->
  weekEntries r <> [] ->
  truthy_opt (VITE_GEMINI_API_KEY (env w)) = false ->
  run (handleGenerateSummary w) r
  = (Returned tt,
     with_loadingAi false
       (with_error (lit "Missing VITE_GEMINI_API_KEY in .env file.") r),
     [Call_setError (lit ""); Call_setLoadingAi true;
      Call_setError (lit "Missing VITE_GEMINI_API_KEY in .env file.");
      Call_setLoadingAi false]).
Proof.
  intros Hteam Hdb Hw Hkey.
  rewrite run_handleGenerateSummary, Hteam, Hdb.
  destruct (weekEntries r) as [|item l] eqn:Hl; [congruence|].
  change (length (item :: l) =? 0)%nat with false. cbv iota.
  now rewrite (proj1 (createAiSummary_failures w (Team.name team) (weekKey r)
                        (item :: l) r) Hkey).
Qed.

Lemma generateSummary_without_credential_witness :
  error (state_of (run (handleGenerateSummary Scenario.w_no_credential) Sample.r_week))
  = lit "Missing VITE_GEMINI_API_KEY in .env file.".
Proof.
  exact (f_equal (fun x => error (state_of x))
           (generateSummary_without_credential Scenario.w_no_credential Sample.r_week
              Sample.squad FirestoreHandle eq_refl eq_refl ltac:(discriminate) eq_refl)).
Defined.

(** X25: past the guards, when the endpoint answers with a
    status that is not [ok], the error shown is ["AI request failed: "]
    followed by the body of the response; nothing is written and the loading
    flag is reset. *)
Theorem generateSummary_surfaces_response_body (w : World) (r : AppState)
  (team : Team.t) (d : Firestore) (apiKey : jsstring) (resp : Response)
  (details : jsstring) :
  activeTeam r = Some team ->
  db w = Some d ->
  weekEntries r <> [] ->
  VITE_GEMINI_API_KEY (env w) = Some apiKey ->
  truthy apiKey = true ->
  fetch_reply w
    {| url := lit "https://generativelanguage.googleapis.com/v1beta/models/gemini-1.5-flash:generateContent?key="
              ++ apiKey;
       method := lit "POST";
       contentType := lit "application/json";
       text := prompt (Team.name team) (weekKey r) (weekEntries r) |}
  = Returned resp ->
  ok resp = false ->
  body_text resp = Returned details ->
  let res := run (handleGenerateSummary w) r in
  error (state_of res) = lit "AI request failed: " ++ details
  /\ writes (trace_of res) = []
  /\ loadingAi (state_of res) = false.
Proof.
  intros Hteam Hdb Hw Hkey Htruthy Hreply Hok Htext. cbv zeta.
  rewrite run_handleGenerateSummary, Hteam, Hdb.
  destruct (weekEntries r) as [|item l] eqn:Hl; [congruence|].
  change (length (item :: l) =? 0)%nat with false. cbv iota.
  destruct (createAiSummary_failures w (Team.name team) (weekKey r) (item :: l) r)
    as (_ & Hfail).
  destruct (Hfail apiKey _ Hkey Htruthy eq_refl) as (_ & Hnot_ok).
  rewrite (Hnot_ok resp details Hreply Hok Htext). now repeat split.
Qed.

Lemma generateSummary_surfaces_response_body_witness :
  error (state_of (run (handleGenerateSummary Sample.w_quota) Sample.r_week))
  = lit "AI request failed: " ++ lit "quota exceeded".
Proof.
  exact (proj1 (generateSummary_surfaces_response_body Sample.w_quota Sample.r_week
                  Sample.squad FirestoreHandle (lit "gemini-key") Sample.reply_quota
                  (lit "quota exceeded")
                  eq_refl eq_refl ltac:(discriminate) eq_refl eq_refl eq_refl
                  eq_refl eq_refl)).
Defined.

